(** * spreadsheet2markdown: rows of a spreadsheet to markdown files

    A shallow embedding of [spreadsheet2markdown.py] and the properties of
    its row-to-document transformer and of its archive writer.

    Conventions of the embedding.
    - Text is ASCII: a Python [str] is a [string]; [str.lower] acts on the
      letters [A]-[Z] and [str.strip] on the ASCII white space.
    - A cell of the data frame is a string, a number or missing
      ([pd.isna]).  A number is carried as the text [str()] gives for it,
      which is all the script ever asks of a number.
    - A column label is a text or, as pandas keeps a header that is a
      number, a number, carried as the text [str()] gives for it: such a
      label has no method [lower].
    - Exceptions are values: a computation returns [Ok a] or [Raise e],
      and the first exception ends the run.
    - [os.path] is [posixpath]; the current directory is an argument of
      the functions that read it.
    - The dictionary [markdown_files] is an association list in insertion
      order, a Python [dict] keeping the position of a key that is
      assigned again.
    - The archive is the list of the entries written by [writestr], in
      order.  Compression, the widgets of the form and the directories
      made by [os.makedirs] are left out: the file system is taken to
      accept every directory the script asks for. *)

From Stdlib Require Import String Ascii List Bool Arith Lia.
Import ListNotations.
Open Scope list_scope.
Open Scope string_scope.

(** ** Python strings *)

Module Str.

Definition is_upper (c : ascii) : bool :=
  let n := nat_of_ascii c in ((65 <=? n) && (n <=? 90))%nat.

Definition lower_char (c : ascii) : ascii :=
  if is_upper c then ascii_of_nat (nat_of_ascii c + 32) else c.

(** [s.lower()] *)
Fixpoint lower (s : string) : string :=
  match s with
  | EmptyString => EmptyString
  | String c s' => String (lower_char c) (lower s')
  end.

(** [s.replace(old, new)] for one-character [old] and [new] *)
Fixpoint replace (old new : ascii) (s : string) : string :=
  match s with
  | EmptyString => EmptyString
  | String c s' =>
      String (if Ascii.eqb c old then new else c) (replace old new s')
  end.

(** [c.isspace()]: tab, line feed, vertical tab, form feed, carriage
    return, the four separators 28-31 and the space. *)
Definition is_space (c : ascii) : bool :=
  let n := nat_of_ascii c in
  (((9 <=? n) && (n <=? 13)) || ((28 <=? n) && (n <=? 32)))%nat.

Fixpoint lstrip (s : string) : string :=
  match s with
  | EmptyString => EmptyString
  | String c s' => if is_space c then lstrip s' else s
  end.

Fixpoint rstrip (s : string) : string :=
  match s with
  | EmptyString => EmptyString
  | String c s' =>
      match rstrip s' with
      | EmptyString => if is_space c then EmptyString else String c EmptyString
      | r => String c r
      end
  end.

(** [s.strip()] *)
Definition strip (s : string) : string := rstrip (lstrip s).

(** [s.startswith(c)] and [s.endswith(c)] for a character [c] *)
Definition startswith (s : string) (c : ascii) : bool :=
  match s with
  | String c' _ => Ascii.eqb c' c
  | EmptyString => false
  end.

(** [s.startswith(pre)] for a string [pre] *)
Fixpoint has_prefix (s pre : string) {struct pre} : bool :=
  match pre, s with
  | EmptyString, _ => true
  | String p pre', String c s' => Ascii.eqb c p && has_prefix s' pre'
  | String _ _, EmptyString => false
  end.

Fixpoint endswith (s : string) (c : ascii) : bool :=
  match s with
  | EmptyString => false
  | String c' EmptyString => Ascii.eqb c' c
  | String _ s' => endswith s' c
  end.

(** [s.lstrip(c)] for a character [c] *)
Fixpoint lstrip_char (c : ascii) (s : string) : string :=
  match s with
  | EmptyString => EmptyString
  | String c' s' => if Ascii.eqb c' c then lstrip_char c s' else s
  end.

(** [s.split(sep)] for a character [sep]; never the empty list *)
Fixpoint split (sep : ascii) (s : string) : list string :=
  match s with
  | EmptyString => [EmptyString]
  | String c s' =>
      if Ascii.eqb c sep then EmptyString :: split sep s'
      else match split sep s' with
           | [] => [String c EmptyString]
           | h :: t => String c h :: t
           end
  end.

(** [sep.join(l)] *)
Definition join (sep : string) (l : list string) : string :=
  String.concat sep l.

Definition is_empty (s : string) : bool :=
  match s with EmptyString => true | _ => false end.

(** [c in s] for a character [c] *)
Fixpoint has_char (c : ascii) (s : string) : bool :=
  match s with
  | EmptyString => false
  | String c' s' => Ascii.eqb c' c || has_char c s'
  end.

(** [s.endswith(suf)] for a string [suf] *)
Fixpoint has_suffix (s suf : string) : bool :=
  (s =? suf)
  || match s with
     | EmptyString => false
     | String _ s' => has_suffix s' suf
     end.

(** [all(p(c) for c in s)] *)
Fixpoint all_chars (p : ascii -> bool) (s : string) : bool :=
  match s with
  | EmptyString => true
  | String c s' => p c && all_chars p s'
  end.

End Str.

(** The line feed, Python's ["\n"]. *)
Definition nl : string := String (ascii_of_nat 10) EmptyString.

(** ** [os.path] (posixpath) *)

Module OsPath.

Definition sep : ascii := "/"%char.
Definition curdir : string := ".".
Definition pardir : string := "..".

Definition join_step (path b : string) : string :=
  if Str.startswith b sep then b
  else if Str.is_empty path || Str.endswith path sep then path ++ b
  else path ++ String sep b.

(** [os.path.join(a, *p)] *)
Definition join (a : string) (p : list string) : string :=
  fold_left join_step p a.

Definition isabs (s : string) : bool := Str.startswith s sep.

(** One or two leading slashes are kept, three or more count as one. *)
Definition initial_slashes (path : string) : nat :=
  if Str.startswith path sep then
    if Str.has_prefix path "//" && negb (Str.has_prefix path "///")
    then 2 else 1
  else 0.

(** The body of the loop of [normpath]; [new_comps] is kept with its
    last element first. *)
Definition norm_step (slashes : nat) (new_comps : list string)
    (comp : string) : list string :=
  if (comp =? "") || (comp =? curdir) then new_comps
  else if negb (comp =? pardir)
          || ((slashes =? 0)%nat && match new_comps with [] => true | _ => false end)
          || match new_comps with top :: _ => top =? pardir | [] => false end
  then comp :: new_comps
  else match new_comps with _ :: rest => rest | [] => [] end.

(** The components that the loop of [normpath] keeps. *)
Definition norm_comps (path : string) : list string :=
  rev (fold_left (norm_step (initial_slashes path)) (Str.split sep path) []).

(** [os.path.normpath(path)] *)
Definition normpath (path : string) : string :=
  if Str.is_empty path then curdir
  else
    let path' := String.concat "" (repeat (String sep "") (initial_slashes path))
                 ++ Str.join (String sep "") (norm_comps path) in
    if Str.is_empty path' then curdir else path'.

(** [os.path.abspath(path)] in the current directory [cwd] *)
Definition abspath (cwd path : string) : string :=
  normpath (if isabs path then path else join cwd [path]).

Fixpoint common_prefix_len (l1 l2 : list string) : nat :=
  match l1, l2 with
  | a :: l1', b :: l2' => if a =? b then S (common_prefix_len l1' l2') else 0
  | _, _ => 0
  end.

Definition components (tail : string) : list string :=
  if Str.is_empty tail then [] else Str.split sep tail.

(** [os.path.relpath(path, start)] in the current directory [cwd];
    [None] is the ValueError of an empty [path]. *)
Definition relpath (cwd path start : string) : option string :=
  if Str.is_empty path then None
  else
    let start_list := components (Str.lstrip_char sep (abspath cwd start)) in
    let path_list := components (Str.lstrip_char sep (abspath cwd path)) in
    let i := common_prefix_len start_list path_list in
    let rel_list :=
      (repeat pardir (List.length start_list - i) ++ skipn i path_list)%list in
    match rel_list with
    | [] => Some curdir
    | a :: p => Some (join a p)
    end.

(** [os.path.basename(p)]: what follows the last slash *)
Definition basename (p : string) : string := last (Str.split sep p) "".

End OsPath.

(** ** Exceptions *)

Inductive exn : Type :=
| AttributeError   (* a method of [str] called on a value that is no [str] *)
| KeyError         (* a label that the row does not have *)
| IndexError       (* an index out of the range of a list *)
| ValueError.

Inductive result (A : Type) : Type :=
| Ok (a : A)
| Raise (e : exn).

Arguments Ok {A} a.
Arguments Raise {A} e.

Definition bind {A B : Type} (c : result A) (k : A -> result B) : result B :=
  match c with
  | Ok a => k a
  | Raise e => Raise e
  end.

Notation "x <- c ;; k" := (bind c (fun x => k))
  (at level 61, c at next level, right associativity).

(** A [for] loop whose body may raise: the state [a] goes through the
    elements in order and the first exception ends the loop. *)
Fixpoint for_each {A B : Type} (body : A -> B -> result A) (l : list B) (a : A)
    : result A :=
  match l with
  | [] => Ok a
  | b :: l' => a' <- body a b ;; for_each body l' a'
  end.

Definition succeeds {A : Type} (c : result A) : bool :=
  match c with Ok _ => true | Raise _ => false end.

(** ** The data frame *)

Inductive cell : Type :=
| VStr (s : string)
| VNum (shown : string)
| VMissing.

(** [pd.isna(v)] *)
Definition isna (v : cell) : bool :=
  match v with VMissing => true | _ => false end.

(** [str(v)], which is also what an f-string puts for [{v}] *)
Definition py_str (v : cell) : string :=
  match v with
  | VStr s => s
  | VNum shown => shown
  | VMissing => "nan"
  end.

(** [v.replace(' ', '_').lower()]: only a [str] has the method [replace]. *)
Definition replace_lower (v : cell) : result string :=
  match v with
  | VStr s => Ok (Str.lower (Str.replace " " "_" s))
  | VNum _ => Raise AttributeError
  | VMissing => Raise AttributeError
  end.

(** A column label: a header cell that holds a text is a [str]; any other
    header (a number, a date) is kept as the value it is, and is carried
    here as the text [str()] gives for it. *)
Inductive label : Type :=
| LText (s : string)
| LNum (shown : string).

Coercion LText : string >-> label.

(** [a == b] on labels: a text never equals a number. *)
Definition label_eqb (a b : label) : bool :=
  match a, b with
  | LText s, LText t => s =? t
  | LNum s, LNum t => s =? t
  | _, _ => false
  end.

(** [str(col)], which is also what an f-string puts for [{col}] *)
Definition label_str (col : label) : string :=
  match col with
  | LText s => s
  | LNum shown => shown
  end.

(** [col.lower()]: only a [str] has the method [lower]. *)
Definition label_lower (col : label) : result string :=
  match col with
  | LText s => Ok (Str.lower s)
  | LNum _ => Raise AttributeError
  end.

Definition is_text_label (col : label) : bool :=
  match col with LText _ => true | LNum _ => false end.

(** Labels that are texts. *)
Definition texts (l : list string) : list label := map LText l.

(** A row of [df.iterrows()]: the cells under their column labels. *)
Definition row : Type := list (label * cell).

(** [row[col]] *)
Fixpoint row_get (r : row) (col : label) : result cell :=
  match r with
  | [] => Raise KeyError
  | (c, v) :: r' => if label_eqb c col then Ok v else row_get r' col
  end.

Record DataFrame : Type := {
  columns : list label;
  rows : list row
}.

(** [col in df.columns] *)
Definition in_columns (col : label) (cols : list label) : bool :=
  existsb (label_eqb col) cols.

(** ** The selections of the form *)

Record config : Type := {
  output_dir : string;
  filename_col : label;
  folder_col : label;                        (* ["None"]: no folder column *)
  properties_cols : list label;
  list_properties : list (string * list label);
  labels_cols : list label;
  sections_cols : list label
}.

(** Lines 82-98: the list property of the form, when it has a name and
    at least one source column. *)
Definition form_list_properties (typed_name : string) (selected : list label)
    : list (string * list label) :=
  let list_property_name := Str.lower (Str.strip typed_name) in
  if Str.is_empty list_property_name then []
  else match selected with
       | [] => []
       | _ => [(list_property_name, selected)]
       end.

(** Lines 18-20: an empty output directory falls back on the default. *)
Definition checked_output_dir (typed : string) : string :=
  if Str.is_empty typed then "generated_markdown" else typed.

(** ** The dictionary [markdown_files] *)

Definition dict : Type := list (string * string).

(** [d[k] = v] *)
Fixpoint dict_set (d : dict) (k v : string) : dict :=
  match d with
  | [] => [(k, v)]
  | (k', v') :: d' =>
      if k' =? k then (k', v) :: d' else (k', v') :: dict_set d' k v
  end.

(** [d.get(k)] *)
Fixpoint dict_get (d : dict) (k : string) : option string :=
  match d with
  | [] => None
  | (k', v') :: d' => if k' =? k then Some v' else dict_get d' k
  end.

Definition dict_keys (d : dict) : list string := map fst d.

(** [k in keys] *)
Definition in_keys (k : string) (keys : list string) : bool :=
  existsb (String.eqb k) keys.

(** ** The row-to-document transformer (lines 145-191) *)

Section Transformer.

Variable cfg : config.
Variable df_columns : list label.

(** Line 147. *)
Definition filename_of (r : row) : result string :=
  v <- row_get r (filename_col cfg) ;;
  base <- replace_lower v ;;
  Ok (base ++ ".md").

(** Lines 150-155. *)
Definition file_path_of (r : row) (filename : string) : result string :=
  if negb (label_eqb (folder_col cfg) "None") then
    v <- row_get r (folder_col cfg) ;;
    if negb (isna v) then
      folder_name <- replace_lower v ;;
      Ok (OsPath.join (output_dir cfg) [folder_name; filename])
    else Ok (OsPath.join (output_dir cfg) [filename])
  else Ok (OsPath.join (output_dir cfg) [filename]).

(** Lines 163-165, the body of the loop. *)
Definition add_property (r : row) (md_content : string) (col : label)
    : result string :=
  if in_columns col df_columns then
    v <- row_get r col ;;
    if negb (isna v) then
      key <- label_lower col ;;
      Ok (md_content ++ key ++ ": " ++ py_str v ++ nl)
    else Ok md_content
  else Ok md_content.

(** Lines 170-172, the body of the inner loop. *)
Definition collect_value (r : row) (values : list string) (col : label)
    : result (list string) :=
  v <- row_get r col ;;
  if negb (isna v) then Ok (values ++ [Str.strip (py_str v)])%list
  else Ok values.

(** Lines 175-176. *)
Definition add_value (md_content value : string) : string :=
  md_content ++ "  - " ++ value ++ nl.

(** Lines 168-176, the body of the outer loop. *)
Definition add_list_property (r : row) (md_content : string)
    (p : string * list label) : result string :=
  let (prop_name, prop_cols) := p in
  values <- for_each (collect_value r) prop_cols [] ;;
  match values with
  | [] => Ok md_content
  | _ => Ok (fold_left add_value values (md_content ++ prop_name ++ ":" ++ nl))
  end.

(** Line 179, one step of the comprehension. *)
Definition collect_label (r : row) (labels : list string) (col : label)
    : result (list string) :=
  if in_columns col df_columns then
    v <- row_get r col ;;
    if negb (isna v) then Ok (labels ++ [py_str v])%list else Ok labels
  else Ok labels.

(** Lines 179-181. *)
Definition add_labels (r : row) (md_content : string) : result string :=
  labels <- for_each (collect_label r) (labels_cols cfg) [] ;;
  match labels with
  | [] => Ok md_content
  | _ => Ok (md_content ++ "labels: [" ++ Str.join ", " labels ++ "]" ++ nl)
  end.

(** Lines 186-188, the body of the loop. *)
Definition add_section (r : row) (md_content : string) (col : label)
    : result string :=
  if in_columns col df_columns then
    v <- row_get r col ;;
    if negb (isna v)
    then Ok (md_content ++ "## " ++ label_str col ++ nl ++ nl
             ++ py_str v ++ nl ++ nl)
    else Ok md_content
  else Ok md_content.

(** Lines 160-183: the frontmatter, from the opening delimiter to the
    closing one and the blank line. *)
Definition frontmatter_of (r : row) : result string :=
  md_content <- for_each (add_property r) (properties_cols cfg) ("---" ++ nl) ;;
  md_content <- for_each (add_list_property r) (list_properties cfg) md_content ;;
  md_content <- add_labels r md_content ;;
  Ok (md_content ++ "---" ++ nl ++ nl).

(** Lines 160-188. *)
Definition md_content_of (r : row) : result string :=
  md_content <- frontmatter_of r ;;
  for_each (add_section r) (sections_cols cfg) md_content.

(** What the loop keeps from one row to the next. *)
Record gen_state : Type := {
  markdown_files : dict;
  file_paths : list string
}.

Definition initial_state : gen_state :=
  {| markdown_files := []; file_paths := [] |}.

(** Lines 146-191: the path and the document of one row. *)
Definition document_of (r : row) : result (string * string) :=
  filename <- filename_of r ;;
  file_path <- file_path_of r filename ;;
  md_content <- md_content_of r ;;
  Ok (file_path, md_content).

(** Lines 145-191, the body of the loop over the rows. *)
Definition process_row (st : gen_state) (r : row) : result gen_state :=
  d <- document_of r ;;
  Ok {| markdown_files := dict_set (markdown_files st) (fst d) (snd d);
        file_paths := (file_paths st ++ [fst d])%list |}.

(** Lines 142-191. *)
Definition transform (rs : list row) : result gen_state :=
  for_each process_row rs initial_state.

End Transformer.

(** ** Preview, archive and file listing (lines 138-223) *)

Record output : Type := {
  preview_name : string;
  preview_content : string;
  archive : list (string * string);
  file_tree : string
}.

Section Generator.

Variable cfg : config.
Variable cwd : string.

(** [os.path.relpath(path, output_dir)] *)
Definition rel_to_root (path : string) : result string :=
  match OsPath.relpath cwd path (output_dir cfg) with
  | Some p => Ok p
  | None => Raise ValueError
  end.

(** Line 195: [list(markdown_files.items())[0]]. *)
Definition first_item (d : dict) : result (string * string) :=
  match d with
  | [] => Raise IndexError
  | item :: _ => Ok item
  end.

(** Lines 205-208, the body of the loop: one [writestr] per item. *)
Definition write_entry (zipf : list (string * string))
    (item : string * string) : result (list (string * string)) :=
  rel_path <- rel_to_root (fst item) ;;
  Ok (zipf ++ [(rel_path, snd item)])%list.

(** Line 222, one step of the comprehension. *)
Definition tree_line (acc : list string) (path : string)
    : result (list string) :=
  rel_path <- rel_to_root path ;;
  Ok (acc ++ [("- " ++ rel_path)%string])%list.

(** Lines 138-223: what a press of the button produces. *)
Definition generate (df : DataFrame) : result output :=
  st <- transform cfg (columns df) (rows df) ;;
  first <- first_item (markdown_files st) ;;
  zipf <- for_each write_entry (markdown_files st) [] ;;
  tree <- for_each tree_line (file_paths st) [] ;;
  Ok {| preview_name := OsPath.basename (fst first);
        preview_content := snd first;
        archive := zipf;
        file_tree := Str.join nl tree |}.

End Generator.

(** ** Well-formed input *)

(** The labels of a row are the columns of its data frame. *)
Definition row_has (r : row) (col : label) : bool := succeeds (row_get r col).

Definition wf_row (df_columns : list label) (r : row) : Prop :=
  forall col, row_has r col = in_columns col df_columns.

(** A check of [wf_row] that computes. *)
Definition wf_rowb (df_columns : list label) (r : row) : bool :=
  forallb (row_has r) df_columns
  && forallb (fun lv => in_columns (fst lv) df_columns) r.

(** The form offers the columns of the frame only (lines 33-134). *)
Record wf_config (cfg : config) (df_columns : list label) : Prop := {
  wf_filename : in_columns (filename_col cfg) df_columns = true;
  wf_folder : folder_col cfg = LText "None"
              \/ in_columns (folder_col cfg) df_columns = true;
  wf_list_properties :
    forall name cols col, In (name, cols) (list_properties cfg) ->
      In col cols -> in_columns col df_columns = true
}.

Definition wf_configb (cfg : config) (df_columns : list label) : bool :=
  in_columns (filename_col cfg) df_columns
  && (label_eqb (folder_col cfg) "None"
      || in_columns (folder_col cfg) df_columns)
  && forallb (fun p => forallb (fun col => in_columns col df_columns) (snd p))
       (list_properties cfg).

(** ** The specification's words *)

(** Spec 4.1, step 1: lowercase, then spaces to underscores. *)
Definition spec_normalize (s : string) : string :=
  Str.replace " " "_" (Str.lower s).

Definition spec_filename (s : string) : string := spec_normalize s ++ ".md".

(** Spec 4.1, step 2: the folder, when there is one, as a directory
    segment between the output root and the file name. *)
Definition spec_file_path (root : string) (folder : option string)
    (filename : string) : string :=
  match folder with
  | Some f => root ++ "/" ++ f ++ "/" ++ filename
  | None => root ++ "/" ++ filename
  end.

(** A path segment that [os.path.join] takes as it is. *)
Definition plain_segment (s : string) : bool :=
  negb (Str.is_empty s) && negb (Str.startswith s "/")
  && negb (Str.endswith s "/").

Definition plain_root (s : string) : bool :=
  negb (Str.is_empty s) && negb (Str.endswith s "/").

(** A directory or file name: not empty, not [.] or [..], no slash. *)
Definition clean_name (c : string) : bool :=
  negb (c =? "") && negb (c =? OsPath.curdir) && negb (c =? OsPath.pardir)
  && negb (Str.has_char OsPath.sep c).

(** A relative path made of such names: [a], [a/b], [a/b/c.md], ... *)
Definition clean_rel (p : string) : bool :=
  forallb clean_name (Str.split OsPath.sep p).

(** What [normpath] keeps is a list of names without a slash. *)
Definition segment (c : string) : bool :=
  negb (c =? "") && negb (Str.has_char OsPath.sep c).

(** ** The mapping, as a store of documents *)

(** The assignments of line 191, one per document, in order. *)
Definition store (docs : list (string * string)) (d : dict) : dict :=
  fold_left (fun d doc => dict_set d (fst doc) (snd doc)) docs d.

(** The entries of the archive whose path is [name]. *)
Definition entries_named (name : string) (zipf : list (string * string))
    : list (string * string) :=
  filter (fun entry => fst entry =? name) zipf.

(** [r'] is [r] with some cells blanked, none of them under [keep]. *)
Definition blanked (keep : label) (r r' : row) : Prop :=
  Forall2 (fun lv lv' =>
             fst lv' = fst lv
             /\ (snd lv' = snd lv \/ (snd lv' = VMissing /\ fst lv <> keep)))
          r r'.

(** The path of the entry written for [path]. *)
Definition entry_name (cfg : config) (cwd path : string) : string :=
  match OsPath.relpath cwd path (output_dir cfg) with
  | Some p => p
  | None => ""
  end.

(** A row whose file name has no slash and whose folder, if any, is made
    of clean names. *)
Definition clean_cells (cfg : config) (r : row) : bool :=
  match row_get r (filename_col cfg) with
  | Ok (VStr s) => negb (Str.has_char OsPath.sep (spec_normalize s))
  | _ => false
  end
  && (if label_eqb (folder_col cfg) "None" then true
      else match row_get r (folder_col cfg) with
           | Ok (VStr f) => clean_rel (spec_normalize f)
           | Ok VMissing => true
           | _ => false
           end).

(** ** The frontmatter, line by line *)

(** The cell under [col], missing when the row has no such label. *)
Definition cell_at (r : row) (col : label) : cell :=
  match row_get r col with
  | Ok v => v
  | Raise _ => VMissing
  end.

Definition present (r : row) (col : label) : bool := negb (isna (cell_at r col)).

(** Lines, each closed by a line feed. *)
Definition unlines (ls : list string) : string :=
  String.concat "" (map (fun l => l ++ nl) ls).

Definition delimiter : string := "---".

(** Spec 4.1, step 3: [key: value] for the property columns that have a
    value, in selection order. *)
Definition property_line (r : row) (col : label) : string :=
  Str.lower (label_str col) ++ ": " ++ py_str (cell_at r col).

Definition property_lines (r : row) (cols : list label) : list string :=
  map (property_line r) (filter (present r) cols).

(** Spec 4.1, step 4: the trimmed values of the source columns that have
    one, and the block they make. *)
Definition list_values (r : row) (cols : list label) : list string :=
  map (fun col => Str.strip (py_str (cell_at r col))) (filter (present r) cols).

Definition list_item (value : string) : string := "  - " ++ value.

Definition list_block (name : string) (values : list string) : list string :=
  match values with
  | [] => []
  | _ => (name ++ ":") :: map list_item values
  end.

Definition list_property_lines (r : row) (p : string * list label)
    : list string :=
  list_block (fst p) (list_values r (snd p)).

(** Spec 4.1, step 5: the label values and the flow list they make. *)
Definition label_values (r : row) (cols : list label) : list string :=
  map (fun col => py_str (cell_at r col)) (filter (present r) cols).

Definition labels_line (labels : list string) : list string :=
  match labels with
  | [] => []
  | _ => ["labels: [" ++ Str.join ", " labels ++ "]"]
  end.

(** What stands between the two delimiters. *)
Definition frontmatter_lines (cfg : config) (r : row) : list string :=
  (property_lines r (properties_cols cfg)
   ++ flat_map (list_property_lines r) (list_properties cfg)
   ++ labels_line (label_values r (labels_cols cfg)))%list.

(** The columns selected for the frontmatter, and whether the row has
    nothing under any of them. *)
Definition selected_cols (cfg : config) : list label :=
  (properties_cols cfg ++ flat_map snd (list_properties cfg)
   ++ labels_cols cfg)%list.

Definition all_missing (cfg : config) (r : row) : bool :=
  forallb (fun col => negb (present r col)) (selected_cols cfg).

(** Spec 4.1, step 7: a level-2 header, the value and a blank line. *)
Definition section_text (r : row) (col : label) : string :=
  "## " ++ label_str col ++ nl ++ nl ++ py_str (cell_at r col) ++ nl ++ nl.

Definition sections_text (r : row) (cols : list label) : string :=
  String.concat "" (map (section_text r) (filter (present r) cols)).

(** ** Further notions *)

(** Every label is a text. *)
Definition text_labels (cols : list label) : bool := forallb is_text_label cols.

(** Line 165 lowers the label of each property column under which the row
    has a value: whether each of these labels is a text. *)
Definition keys_defined (r : row) (cols : list label) : bool :=
  forallb (fun col => is_text_label col || negb (present r col)) cols.


(** The line feed as a character, and the lines of a text:
    [text.split("\n")]. *)
Definition lf : ascii := ascii_of_nat 10.

Definition text_lines (text : string) : list string := Str.split lf text.

Definition no_lf (s : string) : bool := negb (Str.has_char lf s).

(** No line feed in the names and in the cell texts that the frontmatter
    of the row is made of. *)
Definition one_line (cfg : config) (r : row) : bool :=
  forallb (fun col => no_lf (label_str col) && no_lf (py_str (cell_at r col)))
          (properties_cols cfg)
  && forallb (fun p => no_lf (fst p)
                       && forallb (fun col => no_lf (py_str (cell_at r col)))
                                  (snd p))
             (list_properties cfg)
  && forallb (fun col => no_lf (py_str (cell_at r col))) (labels_cols cfg).


(** White space only. *)
Definition blank (s : string) : bool := Str.all_chars Str.is_space s.

(** No white space in front. *)
Definition no_lead (s : string) : bool :=
  match s with
  | EmptyString => true
  | String c _ => negb (Str.is_space c)
  end.

(** A list without the later occurrences of its elements. *)
Fixpoint first_occurrences (l : list string) : list string :=
  match l with
  | [] => []
  | x :: l' => x :: filter (fun y => negb (y =? x)) (first_occurrences l')
  end.

(** Line 94: the columns offered as sources of the list property. *)
Definition list_property_options (df_columns properties_cols : list label)
    : list label :=
  filter (fun col => negb (in_columns col properties_cols)) df_columns.

(** What line 195 and the loops of lines 205-208 and 222 make of the
    state that the transformation leaves. *)
Definition output_of (cfg : config) (cwd : string) (st : gen_state)
    : result output :=
  match markdown_files st with
  | [] => Raise IndexError
  | first :: _ =>
      Ok {| preview_name := OsPath.basename (fst first);
            preview_content := snd first;
            archive := map (fun item => (entry_name cfg cwd (fst item), snd item))
                           (markdown_files st);
            file_tree := Str.join nl
                           (map (fun p => "- " ++ entry_name cfg cwd p)
                                (file_paths st)) |}
  end.

(** ** The running examples *)

(** The row and the selections of the specification's example. *)
Definition spec_row : row :=
  [(LText "Title", VStr "My Doc"); (LText "Folder", VStr "Guides");
   (LText "Author", VStr "Jane"); (LText "Tags", VStr "python,ml")].

Definition spec_columns : list label := texts ["Title"; "Folder"; "Author"; "Tags"].

Definition spec_cfg : config :=
  {| output_dir := checked_output_dir "";
     filename_col := "Title";
     folder_col := "Folder";
     properties_cols := texts ["Author"];
     list_properties := [];
     labels_cols := texts ["Tags"];
     sections_cols := [] |}.

(** The same sheet with the file name as the only selection. *)
Definition bare_cfg : config :=
  {| output_dir := "generated_markdown";
     filename_col := "Title";
     folder_col := "None";
     properties_cols := [];
     list_properties := [];
     labels_cols := [];
     sections_cols := [] |}.

(** A sheet with a list property, a blank cell and a section. *)
Definition product_row : row :=
  [(LText "Title", VStr "Release Notes"); (LText "P1", VStr " mdf "); (LText "P2", VMissing);
   (LText "P3", VNum "7"); (LText "Owner", VMissing); (LText "Notes", VStr "First line")].

Definition product_columns : list label :=
  texts ["Title"; "P1"; "P2"; "P3"; "Owner"; "Notes"].

Definition product_cfg : config :=
  {| output_dir := "generated_markdown";
     filename_col := "Title";
     folder_col := "None";
     properties_cols := texts ["Owner"; "P3"];
     list_properties := [("products", texts ["P1"; "P2"; "P3"])];
     labels_cols := texts ["P3"; "Owner"; "P1"];
     sections_cols := texts ["Notes"; "Owner"] |}.

(** A sheet whose file names are numbers. *)
Definition numbered_row : row := [(LText "ID", VNum "42"); (LText "Author", VStr "Jane")].

Definition numbered_cfg : config :=
  {| output_dir := "generated_markdown";
     filename_col := "ID";
     folder_col := "None";
     properties_cols := texts ["Author"];
     list_properties := [];
     labels_cols := [];
     sections_cols := [] |}.

(** A sheet whose folder is an absolute path. *)
Definition rooted_row : row := [(LText "Title", VStr "My Doc"); (LText "Folder", VStr "/tmp")].






(** A sheet with a column whose header is the number 2024, selected as a
    property or as a section. *)
Definition yearly_row : row :=
  [(LText "Title", VStr "Report"); (LNum "2024", VStr "done")].

Definition yearly_columns : list label := [LText "Title"; LNum "2024"].

Definition yearly_cfg : config :=
  {| output_dir := "generated_markdown";
     filename_col := "Title";
     folder_col := "None";
     properties_cols := [LNum "2024"];
     list_properties := [];
     labels_cols := [];
     sections_cols := [] |}.

Definition yearly_sections_cfg : config :=
  {| output_dir := "generated_markdown";
     filename_col := "Title";
     folder_col := "None";
     properties_cols := [];
     list_properties := [];
     labels_cols := [];
     sections_cols := [LNum "2024"] |}.

(** The specification's example with an author cell of two lines, the
    second one made of three dashes. *)
Definition fenced_row : row :=
  [(LText "Title", VStr "My Doc"); (LText "Folder", VStr "Guides");
   (LText "Author", VStr ("Jane" ++ nl ++ "---"));
   (LText "Tags", VStr "python,ml")].

Definition fenced_frontmatter : string :=
  "---" ++ nl ++ "author: Jane" ++ nl ++ "---" ++ nl
  ++ "labels: [python,ml]" ++ nl ++ "---" ++ nl ++ nl.

(** The specification's selections with the three product columns as one
    list property, and with two columns that are both blank in the row. *)
Definition listed_cfg : config :=
  {| output_dir := "generated_markdown";
     filename_col := "Title";
     folder_col := "None";
     properties_cols := texts ["P3"];
     list_properties := [("products", texts ["P1"; "P2"; "P3"]);
                         ("owners", texts ["P2"; "Owner"])];
     labels_cols := texts ["P1"];
     sections_cols := [] |}.

(** A sheet with a file at the root and the same file in the folder [.]. *)
Definition dotted_rows : list row :=
  [[(LText "Title", VStr "a"); (LText "Folder", VMissing)];
   [(LText "Title", VStr "a"); (LText "Folder", VStr ".")]].

Definition dotted_cfg : config :=
  {| output_dir := "generated_markdown";
     filename_col := "Title";
     folder_col := "Folder";
     properties_cols := [];
     list_properties := [];
     labels_cols := [];
     sections_cols := [] |}.

(** The document of a row with nothing selected. *)
Definition empty_document : string := "---" ++ nl ++ "---" ++ nl ++ nl.

(** The document of the specification's example. *)
Definition spec_document : string :=
  "---" ++ nl ++ "author: Jane" ++ nl ++ "labels: [python,ml]" ++ nl
  ++ "---" ++ nl ++ nl.

(** The specification's row and a later row with the same title and
    folder, by another author. *)
Definition rewritten_rows : list row :=
  [spec_row;
   [(LText "Title", VStr "My Doc"); (LText "Folder", VStr "Guides");
    (LText "Author", VStr "Joe"); (LText "Tags", VMissing)]].

Definition joe_document : string :=
  "---" ++ nl ++ "author: Joe" ++ nl ++ "---" ++ nl ++ nl.

(** The two rows above with a row of another title between them. *)
Definition three_rows : list row :=
  [spec_row;
   [(LText "Title", VStr "Other"); (LText "Folder", VMissing);
    (LText "Author", VMissing); (LText "Tags", VMissing)];
   [(LText "Title", VStr "My Doc"); (LText "Folder", VStr "Guides");
    (LText "Author", VStr "Joe"); (LText "Tags", VMissing)]].

(* ================================================================== *)
(** * Properties *)
(* ================================================================== *)

(** ** The library functions on examples *)

Example lower_ex : Str.lower "My Doc_42 Z" = "my doc_42 z".
Proof. reflexivity. Qed.

Example strip_ex : Str.strip "  a b  " = "a b".
Proof. reflexivity. Qed.

Example split_ex : Str.split "/" "/a//b/" = [""; "a"; ""; "b"; ""].
Proof. reflexivity. Qed.

Example join_ex :
  OsPath.join "out" ["guides"; "x.md"] = "out/guides/x.md"
  /\ OsPath.join "out/" ["guides/"; "x.md"] = "out/guides/x.md"
  /\ OsPath.join "out" [""; "x.md"] = "out/x.md"
  /\ OsPath.join "out" ["/srv"; "x.md"] = "/srv/x.md".
Proof. repeat split; reflexivity. Qed.

Example normpath_ex :
  OsPath.normpath "/a/./b//../c/" = "/a/c"
  /\ OsPath.normpath "../x/.." = ".."
  /\ OsPath.normpath "//a" = "//a"
  /\ OsPath.normpath "///a" = "/a"
  /\ OsPath.normpath "/.." = "/"
  /\ OsPath.normpath "a/.." = ".".
Proof. repeat split; reflexivity. Qed.

Example relpath_ex :
  OsPath.relpath "/home/u" "out/guides/my_doc.md" "out" = Some "guides/my_doc.md"
  /\ OsPath.relpath "/home/u" "out/./a.md" "out" = Some "a.md"
  /\ OsPath.relpath "/home/u" "/srv/a.md" "out" = Some "../../../srv/a.md"
  /\ OsPath.relpath "/home/u" "out" "out" = Some ".".
Proof. repeat split; reflexivity. Qed.

(** ** Labels *)

Lemma label_eqb_spec (a b : label) : reflect (a = b) (label_eqb a b).
Proof.
  destruct a as [s|s], b as [t|t]; simpl;
    try (constructor; discriminate);
    destruct (String.eqb_spec s t) as [E|E]; constructor;
    congruence.
Qed.

Lemma label_eqb_refl (a : label) : label_eqb a a = true.
Proof. destruct a; simpl; apply String.eqb_refl. Qed.

Lemma label_eqb_eq (a b : label) : label_eqb a b = true <-> a = b.
Proof. destruct (label_eqb_spec a b); split; congruence. Qed.

Lemma label_eqb_neq (a b : label) : label_eqb a b = false <-> a <> b.
Proof. destruct (label_eqb_spec a b); split; congruence. Qed.

Lemma label_eqb_sym (a b : label) : label_eqb a b = label_eqb b a.
Proof.
  destruct (label_eqb_spec a b) as [E|E], (label_eqb_spec b a) as [E'|E'];
    congruence.
Qed.

(** ** Strings *)

Lemma append_nil_r (s : string) : s ++ "" = s.
Proof. induction s as [|c s IH]; simpl; [reflexivity | now rewrite IH]. Qed.

Lemma append_assoc (s1 s2 s3 : string) : (s1 ++ s2) ++ s3 = s1 ++ s2 ++ s3.
Proof. induction s1 as [|c s1 IH]; simpl; [reflexivity | now rewrite IH]. Qed.

Lemma lower_char_space (c : ascii) :
  Ascii.eqb (Str.lower_char c) " " = Ascii.eqb c " ".
Proof.
  destruct c as [[] [] [] [] [] [] [] []]; reflexivity.
Qed.

Lemma lower_char_underscore : Str.lower_char "_" = "_"%char.
Proof. reflexivity. Qed.

(** The script replaces and then lowercases, the specification lowercases
    and then replaces: the two orders agree. *)
Lemma lower_replace (s : string) :
  Str.lower (Str.replace " " "_" s) = spec_normalize s.
Proof.
  unfold spec_normalize.
  induction s as [|c s IH]; simpl; [reflexivity|].
  rewrite IH, lower_char_space.
  destruct (Ascii.eqb c " "); reflexivity.
Qed.

Lemma endswith_append (a b : string) (c : ascii) :
  Str.is_empty b = false -> Str.endswith (a ++ b) c = Str.endswith b c.
Proof.
  intros Hb. induction a as [|x a IH]; simpl; [reflexivity|].
  rewrite IH. destruct (a ++ b) eqn:E; [|reflexivity].
  destruct a; destruct b; simpl in *; discriminate.
Qed.

(** ** [os.path.join] on plain segments *)

Lemma join_step_plain (path b : string) :
  plain_root path = true -> Str.startswith b "/" = false ->
  OsPath.join_step path b = path ++ "/" ++ b.
Proof.
  unfold plain_root, OsPath.join_step, OsPath.sep. intros Hp Hb.
  apply andb_true_iff in Hp as [Hne Hend].
  apply negb_true_iff in Hne. apply negb_true_iff in Hend.
  rewrite Hb, Hne, Hend. reflexivity.
Qed.

Lemma plain_root_append (path b : string) :
  plain_segment b = true -> plain_root (path ++ "/" ++ b) = true.
Proof.
  unfold plain_segment, plain_root. intros Hb.
  apply andb_true_iff in Hb as [Hb Hend].
  apply andb_true_iff in Hb as [Hne _].
  apply negb_true_iff in Hne.
  assert (Hne' : Str.is_empty ("/" ++ b) = false) by reflexivity.
  rewrite (endswith_append path ("/" ++ b) "/" Hne').
  change ("/" ++ b) with (String "/" b).
  replace (Str.endswith (String "/" b) "/") with (Str.endswith b "/")
    by (destruct b; [discriminate | reflexivity]).
  rewrite Hend. simpl.
  destruct path; reflexivity.
Qed.

Lemma join_plain2 (root folder filename : string) :
  plain_root root = true -> plain_segment folder = true ->
  Str.startswith filename "/" = false ->
  OsPath.join root [folder; filename] = spec_file_path root (Some folder) filename.
Proof.
  intros Hr Hf Hn. unfold OsPath.join, spec_file_path. simpl.
  assert (Hs : Str.startswith folder "/" = false).
  { unfold plain_segment in Hf.
    apply andb_true_iff in Hf as [Hf _]. apply andb_true_iff in Hf as [_ Hf].
    now apply negb_true_iff in Hf. }
  rewrite (join_step_plain root folder Hr Hs).
  rewrite (join_step_plain _ filename (plain_root_append root folder Hf) Hn).
  now rewrite !append_assoc.
Qed.

Lemma join_plain1 (root filename : string) :
  plain_root root = true -> Str.startswith filename "/" = false ->
  OsPath.join root [filename] = spec_file_path root None filename.
Proof.
  intros Hr Hn. unfold OsPath.join, spec_file_path. simpl.
  now rewrite (join_step_plain root filename Hr Hn).
Qed.

(** The output directory that the script works with is never empty. *)
Lemma checked_output_dir_not_empty (typed : string) :
  Str.is_empty (checked_output_dir typed) = false.
Proof. unfold checked_output_dir. destruct typed; reflexivity. Qed.

(** ** The file name (line 147) *)

(** For a text cell the file name is the one of the specification:
    lowercased, spaces as underscores, [.md] at the end. *)
Lemma filename_of_str (cfg : config) (r : row) (s : string) :
  row_get r (filename_col cfg) = Ok (VStr s) ->
  filename_of cfg r = Ok (spec_filename s).
Proof.
  intros H. unfold filename_of, spec_filename. rewrite H. simpl.
  now rewrite lower_replace.
Qed.

Lemma filename_of_not_str (cfg : config) (r : row) (v : cell) :
  row_get r (filename_col cfg) = Ok v ->
  (forall s, v <> VStr s) ->
  filename_of cfg r = Raise AttributeError.
Proof.
  intros H Hv. unfold filename_of. rewrite H.
  destruct v; simpl; [now destruct (Hv s) | reflexivity | reflexivity].
Qed.

(** C1, at a row whose file-name cell is the number 42: the cell is
    present, the specification's file name for it is [42.md], and the
    script raises AttributeError instead of computing a file name, since
    a number has no method [replace]. *)
Theorem filename_of_number_raises :
  row_get numbered_row (filename_col numbered_cfg) = Ok (VNum "42")
  /\ isna (VNum "42") = false
  /\ spec_filename (py_str (VNum "42")) = "42.md"
  /\ filename_of numbered_cfg numbered_row = Raise AttributeError.
Proof. repeat split. Qed.

(** ** The output path (lines 150-155) *)

(** The path is [os.path.join] of the root, the folder when there is one,
    and the file name. *)
Lemma file_path_of_folder (cfg : config) (r : row) (filename s : string) :
  folder_col cfg <> LText "None" ->
  row_get r (folder_col cfg) = Ok (VStr s) ->
  file_path_of cfg r filename
  = Ok (OsPath.join (output_dir cfg) [spec_normalize s; filename]).
Proof.
  intros Hc Hv. unfold file_path_of.
  apply label_eqb_neq in Hc. rewrite Hc, Hv. simpl.
  now rewrite lower_replace.
Qed.

Lemma file_path_of_no_folder (cfg : config) (r : row) (filename : string) :
  folder_col cfg = LText "None" \/ row_get r (folder_col cfg) = Ok VMissing ->
  file_path_of cfg r filename = Ok (OsPath.join (output_dir cfg) [filename]).
Proof.
  intros H. unfold file_path_of.
  destruct (label_eqb_spec (folder_col cfg) "None") as [E|E]; simpl;
    [reflexivity|].
  destruct H as [H|H]; [contradiction|]. now rewrite H.
Qed.










(** ** Loops that append *)

Lemma for_each_append_string {B : Type} (body : string -> B -> result string)
    (emit : B -> string) (l : list B) :
  (forall b, In b l -> forall a, body a b = Ok (a ++ emit b)) ->
  forall a, for_each body l a = Ok (a ++ String.concat "" (map emit l)).
Proof.
  induction l as [|b l IH]; intros H a; simpl.
  - now rewrite append_nil_r.
  - rewrite (H b (or_introl eq_refl)). simpl.
    rewrite IH by (intros b' Hb'; apply H; now right).
    f_equal. rewrite append_assoc. f_equal.
    destruct l; simpl; [now rewrite append_nil_r | reflexivity].
Qed.

Lemma for_each_append_list {B C : Type} (body : list C -> B -> result (list C))
    (emit : B -> list C) (l : list B) :
  (forall b, In b l -> forall a, body a b = Ok (a ++ emit b)%list) ->
  forall a, for_each body l a = Ok (a ++ flat_map emit l)%list.
Proof.
  induction l as [|b l IH]; intros H a; simpl.
  - now rewrite app_nil_r.
  - rewrite (H b (or_introl eq_refl)). simpl.
    rewrite IH by (intros b' Hb'; apply H; now right).
    now rewrite <- app_assoc.
Qed.

Lemma concat_empty_app (l1 l2 : list string) :
  String.concat "" (l1 ++ l2) = String.concat "" l1 ++ String.concat "" l2.
Proof.
  induction l1 as [|x l1 IH]; simpl; [reflexivity|].
  destruct l1 as [|y l1]; simpl in *.
  - destruct l2; simpl; [now rewrite append_nil_r | reflexivity].
  - now rewrite IH, append_assoc.
Qed.

Lemma unlines_app (l1 l2 : list string) :
  unlines (l1 ++ l2) = unlines l1 ++ unlines l2.
Proof. unfold unlines. now rewrite map_app, concat_empty_app. Qed.

Lemma unlines_cons (l : string) (ls : list string) :
  unlines (l :: ls) = l ++ nl ++ unlines ls.
Proof.
  change (l :: ls) with ([l] ++ ls)%list. rewrite unlines_app.
  unfold unlines at 1. simpl. now rewrite append_assoc.
Qed.

Lemma unlines_nil : unlines [] = "".
Proof. reflexivity. Qed.

Lemma unlines_one (l : string) : unlines [l] = l ++ nl.
Proof. reflexivity. Qed.

Lemma unlines_flat_map {B : Type} (emit : B -> list string) (l : list B) :
  String.concat "" (map (fun b => unlines (emit b)) l) = unlines (flat_map emit l).
Proof.
  induction l as [|b l IH]; simpl; [reflexivity|].
  rewrite unlines_app, <- IH.
  destruct l; simpl; [now rewrite append_nil_r | reflexivity].
Qed.

Lemma flat_map_filter {B C : Type} (p : B -> bool) (f : B -> C) (l : list B) :
  flat_map (fun b => if p b then [f b] else []) l = map f (filter p l).
Proof.
  induction l as [|b l IH]; simpl; [reflexivity|].
  rewrite IH. now destruct (p b).
Qed.

(** ** Cells of a well-formed row *)

Lemma row_get_cell_at (r : row) (col : label) :
  row_has r col = true -> row_get r col = Ok (cell_at r col).
Proof.
  unfold row_has, cell_at. now destruct (row_get r col).
Qed.

Lemma not_in_columns_absent (df_columns : list label) (r : row) (col : label) :
  wf_row df_columns r -> in_columns col df_columns = false -> present r col = false.
Proof.
  intros Hwf Hc. unfold present, cell_at.
  specialize (Hwf col). rewrite Hc in Hwf. unfold row_has in Hwf.
  now destruct (row_get r col).
Qed.

Lemma in_columns_In (col : label) (cols : list label) :
  in_columns col cols = true <-> In col cols.
Proof.
  unfold in_columns. rewrite existsb_exists. split.
  - intros [x [Hx E]]. apply label_eqb_eq in E. now subst.
  - intros H. exists col. split; [assumption | apply label_eqb_refl].
Qed.

Lemma in_keys_In (k : string) (keys : list string) :
  in_keys k keys = true <-> In k keys.
Proof.
  unfold in_keys. rewrite existsb_exists. split.
  - intros [x [Hx E]]. apply String.eqb_eq in E. now subst.
  - intros H. exists k. split; [assumption | apply String.eqb_refl].
Qed.

Lemma row_has_In (r : row) (col : label) :
  row_has r col = true -> exists v, In (col, v) r.
Proof.
  unfold row_has. induction r as [|[c v] r IH]; simpl; [discriminate|].
  destruct (label_eqb_spec c col) as [E|E].
  - subst. intros _. exists v. now left.
  - intros H. destruct (IH H) as [v' Hv']. exists v'. now right.
Qed.

Lemma wf_rowb_sound (df_columns : list label) (r : row) :
  wf_rowb df_columns r = true -> wf_row df_columns r.
Proof.
  unfold wf_rowb. intros H col. apply andb_true_iff in H as [H1 H2].
  rewrite forallb_forall in H1, H2.
  destruct (in_columns col df_columns) eqn:E.
  - apply H1. now apply in_columns_In.
  - destruct (row_has r col) eqn:Hr; [|reflexivity].
    apply row_has_In in Hr as [v Hv].
    apply H2 in Hv. simpl in Hv. congruence.
Qed.

(** ** The frontmatter (lines 160-183) *)

Section Frontmatter.

Variable cfg : config.
Variable df_columns : list label.
Variable r : row.
Hypothesis Hrow : wf_row df_columns r.

Lemma add_property_emits (md_content : string) (col : label) :
  is_text_label col = true ->
  add_property df_columns r md_content col
  = Ok (md_content
        ++ unlines (if present r col then [property_line r col] else [])).
Proof.
  intros Htext. destruct col as [s|shown]; [clear Htext | discriminate].
  unfold add_property. destruct (in_columns s df_columns) eqn:E.
  - rewrite row_get_cell_at by (now rewrite Hrow). cbn [bind].
    unfold present. destruct (isna (cell_at r s)); cbn [negb].
    + now rewrite unlines_nil, append_nil_r.
    + cbn [label_lower bind]. rewrite unlines_one. unfold property_line.
      cbn [label_str]. now rewrite !append_assoc.
  - rewrite (not_in_columns_absent df_columns r s Hrow E).
    now rewrite unlines_nil, append_nil_r.
Qed.

(** A label that is not a text makes the loop raise as soon as its cell
    is not missing. *)
Lemma add_property_number_label (md_content shown : string) :
  add_property df_columns r md_content (LNum shown)
  = if present r (LNum shown) then Raise AttributeError else Ok md_content.
Proof.
  unfold add_property. destruct (in_columns (LNum shown) df_columns) eqn:E.
  - rewrite row_get_cell_at by (now rewrite Hrow). cbn [bind].
    unfold present. now destruct (isna (cell_at r (LNum shown))).
  - now rewrite (not_in_columns_absent df_columns r _ Hrow E).
Qed.

(** The loop over the property columns: it raises when one of the columns
    with a value has a label that is not a text, and appends the lines of
    the properties otherwise. *)
Lemma properties_loop_total (cols : list label) (md_content : string) :
  for_each (add_property df_columns r) cols md_content
  = if keys_defined r cols
    then Ok (md_content ++ unlines (property_lines r cols))
    else Raise AttributeError.
Proof.
  revert md_content. induction cols as [|col cols IH]; intros md_content.
  - cbn. now rewrite append_nil_r.
  - cbn [for_each keys_defined forallb]. fold (keys_defined r cols).
    destruct col as [s|shown].
    + rewrite (add_property_emits md_content s eq_refl). cbn [bind].
      rewrite IH. cbn [is_text_label orb andb].
      destruct (keys_defined r cols); [|reflexivity].
      f_equal. unfold property_lines. cbn [filter].
      destruct (present r s); cbn [map].
      * rewrite unlines_one, (unlines_cons (property_line r s)).
        now rewrite !append_assoc.
      * now rewrite unlines_nil, append_nil_r.
    + rewrite add_property_number_label. cbn [is_text_label orb].
      unfold property_lines. cbn [filter].
      destruct (present r (LNum shown)); cbn [negb andb bind]; [reflexivity|].
      now rewrite IH.
Qed.

Lemma text_labels_keys_defined (cols : list label) :
  text_labels cols = true -> keys_defined r cols = true.
Proof.
  unfold text_labels, keys_defined. rewrite !forallb_forall.
  intros H col Hcol. now rewrite (H col Hcol).
Qed.

Lemma properties_loop (cols : list label) (md_content : string) :
  keys_defined r cols = true ->
  for_each (add_property df_columns r) cols md_content
  = Ok (md_content ++ unlines (property_lines r cols)).
Proof. intros H. now rewrite properties_loop_total, H. Qed.

Lemma collect_value_emits (values : list string) (col : label) :
  row_has r col = true ->
  collect_value r values col
  = Ok (values ++ (if present r col
                   then [Str.strip (py_str (cell_at r col))] else []))%list.
Proof.
  intros H. unfold collect_value. rewrite (row_get_cell_at r col H). simpl.
  unfold present. destruct (isna (cell_at r col)); simpl;
    [now rewrite app_nil_r | reflexivity].
Qed.

Lemma values_loop (cols : list label) :
  (forall col, In col cols -> row_has r col = true) ->
  for_each (collect_value r) cols [] = Ok (list_values r cols).
Proof.
  intros H.
  rewrite (for_each_append_list _
             (fun col => if present r col
                         then [Str.strip (py_str (cell_at r col))] else []))
    by (intros; now apply collect_value_emits, H).
  simpl. unfold list_values. now rewrite flat_map_filter.
Qed.

Lemma add_value_loop (values : list string) (md_content : string) :
  fold_left add_value values md_content
  = md_content ++ unlines (map list_item values).
Proof.
  revert md_content. induction values as [|v values IH]; intros md; simpl.
  - now rewrite append_nil_r.
  - rewrite IH, unlines_cons. unfold add_value, list_item.
    now rewrite !append_assoc.
Qed.

Lemma add_list_property_emits (md_content : string) (p : string * list label) :
  (forall col, In col (snd p) -> row_has r col = true) ->
  add_list_property r md_content p
  = Ok (md_content ++ unlines (list_property_lines r p)).
Proof.
  destruct p as [name cols]. simpl. intros H.
  unfold add_list_property, list_property_lines. simpl.
  rewrite (values_loop cols H). simpl.
  destruct (list_values r cols) as [|v values] eqn:E; simpl.
  - now rewrite append_nil_r.
  - f_equal. change (fold_left add_value values _)
      with (fold_left add_value (v :: values) (md_content ++ name ++ ":" ++ nl)).
    rewrite add_value_loop.
    change ((name ++ ":") :: list_item v :: map list_item values)
      with ((name ++ ":") :: map list_item (v :: values)).
    rewrite (unlines_cons (name ++ ":")). now rewrite !append_assoc.
Qed.

Lemma list_properties_loop (ps : list (string * list label))
    (md_content : string) :
  (forall name cols col, In (name, cols) ps -> In col cols ->
     row_has r col = true) ->
  for_each (add_list_property r) ps md_content
  = Ok (md_content ++ unlines (flat_map (list_property_lines r) ps)).
Proof.
  intros H.
  rewrite (for_each_append_string _
             (fun p => unlines (list_property_lines r p))).
  - now rewrite unlines_flat_map.
  - intros [name cols] Hp a. apply add_list_property_emits.
    intros col Hc. exact (H name cols col Hp Hc).
Qed.

Lemma collect_label_emits (labels : list string) (col : label) :
  collect_label df_columns r labels col
  = Ok (labels ++ (if present r col then [py_str (cell_at r col)] else []))%list.
Proof.
  unfold collect_label. destruct (in_columns col df_columns) eqn:E.
  - rewrite row_get_cell_at by (now rewrite Hrow). simpl.
    unfold present. destruct (isna (cell_at r col)); simpl;
      [now rewrite app_nil_r | reflexivity].
  - rewrite (not_in_columns_absent df_columns r col Hrow E).
    now rewrite app_nil_r.
Qed.

Lemma labels_loop (cols : list label) :
  for_each (collect_label df_columns r) cols [] = Ok (label_values r cols).
Proof.
  rewrite (for_each_append_list _
             (fun col => if present r col then [py_str (cell_at r col)] else []))
    by (intros; apply collect_label_emits).
  simpl. unfold label_values. now rewrite flat_map_filter.
Qed.

Lemma add_labels_emits (md_content : string) :
  add_labels cfg df_columns r md_content
  = Ok (md_content ++ unlines (labels_line (label_values r (labels_cols cfg)))).
Proof.
  unfold add_labels. rewrite labels_loop. cbn [bind].
  destruct (label_values r (labels_cols cfg)) as [|l ls]; cbn [labels_line].
  - now rewrite unlines_nil, append_nil_r.
  - rewrite unlines_one. now rewrite !append_assoc.
Qed.

End Frontmatter.

Lemma wf_configb_sound (cfg : config) (df_columns : list label) :
  wf_configb cfg df_columns = true -> wf_config cfg df_columns.
Proof.
  unfold wf_configb. intros H.
  apply andb_true_iff in H as [H H3]. apply andb_true_iff in H as [H1 H2].
  constructor.
  - exact H1.
  - apply orb_true_iff in H2 as [H2|H2];
      [left; now apply label_eqb_eq | now right].
  - intros name cols col Hp Hc. rewrite forallb_forall in H3.
    specialize (H3 _ Hp). simpl in H3. rewrite forallb_forall in H3.
    now apply H3.
Qed.

Lemma has_char_append (c : ascii) (a b : string) :
  Str.has_char c (a ++ b) = Str.has_char c a || Str.has_char c b.
Proof.
  induction a as [|x a IH]; simpl; [reflexivity|].
  rewrite IH. now rewrite orb_assoc.
Qed.

Lemma property_line_not_delimiter (r : row) (col : label) :
  property_line r col <> delimiter.
Proof.
  intros E. apply (f_equal (Str.has_char ":")) in E.
  unfold property_line in E. rewrite !has_char_append in E.
  simpl in E. rewrite orb_true_r in E. discriminate.
Qed.

Lemma list_block_not_delimiter (name : string) (values : list string) :
  ~ In delimiter (list_block name values).
Proof.
  destruct values as [|v values]; [intros []|].
  cbn [list_block]. intros [E|H].
  - apply (f_equal (Str.has_char ":")) in E.
    rewrite has_char_append in E. simpl in E.
    rewrite orb_true_r in E. discriminate.
  - apply in_map_iff in H as [x [E _]]. discriminate.
Qed.

Lemma labels_line_not_delimiter (labels : list string) :
  ~ In delimiter (labels_line labels).
Proof.
  destruct labels; [intros []|]. intros [E|[]]. discriminate.
Qed.

(** No line between the delimiters is itself a delimiter. *)
Lemma frontmatter_lines_not_delimiter (cfg : config) (r : row) :
  ~ In delimiter (frontmatter_lines cfg r).
Proof.
  unfold frontmatter_lines. intros H.
  apply in_app_or in H as [H|H].
  - apply in_map_iff in H as [col [E _]].
    now apply property_line_not_delimiter in E.
  - apply in_app_or in H as [H|H].
    + apply in_flat_map in H as [p [_ H]].
      now apply list_block_not_delimiter in H.
    + now apply labels_line_not_delimiter in H.
Qed.

Lemma count_occ_absent (l : list string) (x : string) :
  ~ In x l -> count_occ string_dec l x = 0.
Proof. intros H. now apply count_occ_not_In. Qed.

Lemma all_missing_no_lines (cfg : config) (r : row) :
  all_missing cfg r = true -> frontmatter_lines cfg r = [].
Proof.
  unfold all_missing, selected_cols, frontmatter_lines.
  rewrite !forallb_app. intros H.
  apply andb_true_iff in H as [Hp H]. apply andb_true_iff in H as [Hl Hb].
  assert (Hfilter : forall cols,
             forallb (fun col => negb (present r col)) cols = true ->
             filter (present r) cols = []).
  { induction cols as [|c cols IH]; simpl; [reflexivity|].
    intros Hc. apply andb_true_iff in Hc as [Hc1 Hc2].
    apply negb_true_iff in Hc1. rewrite Hc1. now apply IH. }
  unfold property_lines, label_values.
  rewrite (Hfilter _ Hp), (Hfilter _ Hb). simpl.
  rewrite app_nil_r.
  induction (list_properties cfg) as [|[name cols] ps IH]; simpl;
    [reflexivity|].
  simpl in Hl. rewrite forallb_app in Hl.
  apply andb_true_iff in Hl as [Hl1 Hl2].
  rewrite (IH Hl2), app_nil_r.
  unfold list_property_lines, list_values. simpl.
  now rewrite (Hfilter _ Hl1).
Qed.

Lemma wf_sources_present (cfg : config) (df_columns : list label) (r : row) :
  wf_row df_columns r -> wf_config cfg df_columns ->
  forall name cols col, In (name, cols) (list_properties cfg) -> In col cols ->
    row_has r col = true.
Proof.
  intros Hrow Hcfg name cols col Hp Hc. rewrite Hrow.
  exact (wf_list_properties cfg df_columns Hcfg name cols col Hp Hc).
Qed.

Lemma unlines_closing : unlines [delimiter; ""] = "---" ++ nl ++ nl.
Proof. reflexivity. Qed.

(** The frontmatter of a row of the frame: the loop over the properties
    raises, or the frontmatter is the opening delimiter, the lines of the
    properties, of the list properties and of the labels, the closing
    delimiter and a blank line. *)
Lemma frontmatter_of_total (cfg : config) (df_columns : list label) (r : row) :
  wf_row df_columns r -> wf_config cfg df_columns ->
  frontmatter_of cfg df_columns r
  = if keys_defined r (properties_cols cfg)
    then Ok (unlines (delimiter :: frontmatter_lines cfg r ++ [delimiter; ""]))
    else Raise AttributeError.
Proof.
  intros Hrow Hcfg. unfold frontmatter_of.
  rewrite (properties_loop_total df_columns r Hrow).
  destruct (keys_defined r (properties_cols cfg)); [|reflexivity].
  cbn [bind].
  rewrite (list_properties_loop r)
    by (apply (wf_sources_present cfg df_columns r Hrow Hcfg)).
  cbn [bind].
  rewrite (add_labels_emits cfg df_columns r Hrow). cbn [bind].
  f_equal. unfold frontmatter_lines.
  rewrite unlines_cons, !unlines_app, unlines_closing.
  unfold delimiter. now rewrite !append_assoc.
Qed.

Lemma frontmatter_of_lines (cfg : config) (df_columns : list label) (r : row) :
  wf_row df_columns r -> wf_config cfg df_columns ->
  keys_defined r (properties_cols cfg) = true ->
  frontmatter_of cfg df_columns r
  = Ok (unlines (delimiter :: frontmatter_lines cfg r ++ [delimiter; ""])).
Proof.
  intros Hrow Hcfg Hkeys.
  now rewrite (frontmatter_of_total cfg df_columns r Hrow Hcfg), Hkeys.
Qed.

Lemma add_section_emits (df_columns : list label) (r : row)
    (md_content : string) (col : label) :
  wf_row df_columns r ->
  add_section df_columns r md_content col
  = Ok (md_content ++ (if present r col then section_text r col else "")).
Proof.
  intros Hrow. unfold add_section.
  destruct (in_columns col df_columns) eqn:E.
  - rewrite row_get_cell_at by (now rewrite Hrow). cbn [bind].
    unfold present. destruct (isna (cell_at r col)); cbn [negb].
    + now rewrite append_nil_r.
    + reflexivity.
  - rewrite (not_in_columns_absent df_columns r col Hrow E).
    now rewrite append_nil_r.
Qed.

Lemma sections_loop (df_columns : list label) (r : row) (cols : list label)
    (md_content : string) :
  wf_row df_columns r ->
  for_each (add_section df_columns r) cols md_content
  = Ok (md_content ++ sections_text r cols).
Proof.
  intros Hrow.
  rewrite (for_each_append_string _
             (fun col => if present r col then section_text r col else ""))
    by (intros; now apply add_section_emits).
  f_equal. f_equal. unfold sections_text.
  induction cols as [|c cols IH]; [reflexivity|].
  cbn [map filter]. destruct (present r c); cbn [map].
  - change (section_text r c :: map (section_text r) (filter (present r) cols))
      with ([section_text r c] ++ map (section_text r) (filter (present r) cols))%list.
    rewrite concat_empty_app, <- IH.
    change (?a :: ?l) with ([a] ++ l)%list at 1.
    now rewrite concat_empty_app.
  - rewrite <- IH.
    change (?a :: ?l) with ([a] ++ l)%list at 1.
    now rewrite concat_empty_app.
Qed.

(** The document is the frontmatter followed by the sections. *)
Lemma md_content_of_sections (cfg : config) (df_columns : list label) (r : row) :
  wf_row df_columns r ->
  md_content_of cfg df_columns r
  = (fm <- frontmatter_of cfg df_columns r ;;
     Ok (fm ++ sections_text r (sections_cols cfg))).
Proof.
  intros Hrow. unfold md_content_of.
  destruct (frontmatter_of cfg df_columns r) as [fm|e]; cbn [bind];
    [|reflexivity].
  now apply sections_loop.
Qed.

Lemma md_content_of_lines (cfg : config) (df_columns : list label) (r : row) :
  wf_row df_columns r -> wf_config cfg df_columns ->
  keys_defined r (properties_cols cfg) = true ->
  md_content_of cfg df_columns r
  = Ok (unlines (delimiter :: frontmatter_lines cfg r ++ [delimiter; ""])
        ++ sections_text r (sections_cols cfg)).
Proof.
  intros Hrow Hcfg Hkeys. rewrite (md_content_of_sections cfg df_columns r Hrow).
  now rewrite (frontmatter_of_lines cfg df_columns r Hrow Hcfg Hkeys).
Qed.

Lemma all_missing_keys_defined (cfg : config) (r : row) :
  all_missing cfg r = true -> keys_defined r (properties_cols cfg) = true.
Proof.
  unfold all_missing, selected_cols, keys_defined.
  rewrite forallb_app. intros H. apply andb_true_iff in H as [Hp _].
  rewrite forallb_forall in *. intros col Hcol.
  rewrite (Hp col Hcol). apply orb_true_r.
Qed.

(** C6, at a sheet with a column whose header is the number 2024, selected
    as a property: the cell of the row under it is the text [done], not
    missing, and the specification's line for it is [2024: done]; the
    script calls [lower] on the label and raises AttributeError, for the
    property, the frontmatter, the row and the whole run.  Selected as a
    section, the same column is written out as [## 2024]. *)
Theorem property_of_number_label_raises :
  in_columns (LNum "2024") yearly_columns = true
  /\ row_get yearly_row (LNum "2024") = Ok (VStr "done")
  /\ isna (VStr "done") = false
  /\ property_line yearly_row (LNum "2024") = "2024: done"
  /\ add_property yearly_columns yearly_row ("---" ++ nl) (LNum "2024")
     = Raise AttributeError
  /\ frontmatter_of yearly_cfg yearly_columns yearly_row = Raise AttributeError
  /\ document_of yearly_cfg yearly_columns yearly_row = Raise AttributeError
  /\ transform yearly_cfg yearly_columns [yearly_row] = Raise AttributeError
  /\ md_content_of yearly_sections_cfg yearly_columns yearly_row
     = Ok ("---" ++ nl ++ "---" ++ nl ++ nl
           ++ "## 2024" ++ nl ++ nl ++ "done" ++ nl ++ nl).
Proof. repeat split. Qed.

(** C7.  For every row of the frame and the list properties of the form:
    the values collected for a list property are the texts of its source
    cells that are not missing, in source-column order, each with the
    white space around it removed; when there is at least one, the line
    [name:] and one line [  - value] per value are appended, and when
    there is none nothing is appended; the loop over the list properties
    appends these blocks in the order of the list properties; and the
    frontmatter, when the loop over the properties does not raise, is the
    opening delimiter, the lines of the properties, these blocks, the
    line of the labels, the closing delimiter and a blank line. *)
Theorem list_property_emitted (cfg : config) (df_columns : list label) (r : row) :
  wf_row df_columns r -> wf_config cfg df_columns ->
  let values := fun cols : list label =>
    map (fun col => Str.strip (py_str (cell_at r col)))
        (filter (fun col => negb (isna (cell_at r col))) cols) in
  let block := fun p : string * list label =>
    match values (snd p) with
    | [] => []
    | v :: vs => (fst p ++ ":") :: map (fun v => "  - " ++ v) (v :: vs)
    end in
  (forall name cols md_content, In (name, cols) (list_properties cfg) ->
     for_each (collect_value r) cols [] = Ok (values cols)
     /\ add_list_property r md_content (name, cols)
        = Ok (md_content ++ unlines (block (name, cols))))
  /\ (forall md_content,
        for_each (add_list_property r) (list_properties cfg) md_content
        = Ok (md_content ++ unlines (flat_map block (list_properties cfg))))
  /\ frontmatter_of cfg df_columns r
     = if keys_defined r (properties_cols cfg)
       then Ok (unlines (delimiter
                         :: property_lines r (properties_cols cfg)
                         ++ flat_map block (list_properties cfg)
                         ++ labels_line (label_values r (labels_cols cfg))
                         ++ [delimiter; ""]))
       else Raise AttributeError.
Proof.
  intros Hrow Hcfg values block.
  assert (Hhas : forall name cols col,
             In (name, cols) (list_properties cfg) -> In col cols ->
             row_has r col = true)
    by exact (wf_sources_present cfg df_columns r Hrow Hcfg).
  assert (Hblock : forall p, block p = list_property_lines r p).
  { intros p. unfold block, list_property_lines, list_block.
    change (values (snd p)) with (list_values r (snd p)).
    now destruct (list_values r (snd p)). }
  assert (Hblocks : flat_map block (list_properties cfg)
                    = flat_map (list_property_lines r) (list_properties cfg)).
  { apply flat_map_ext. exact Hblock. }
  split; [|split].
  - intros name cols md_content Hin. split.
    + apply values_loop. intros col Hc. exact (Hhas name cols col Hin Hc).
    + rewrite Hblock. apply add_list_property_emits.
      intros col Hc. exact (Hhas name cols col Hin Hc).
  - intros md_content. rewrite Hblocks.
    now apply list_properties_loop.
  - rewrite Hblocks, !app_assoc, <- (app_assoc (property_lines _ _)).
    exact (frontmatter_of_total cfg df_columns r Hrow Hcfg).
Qed.

Lemma list_property_emitted_witness :
  wf_row product_columns product_row /\ wf_config listed_cfg product_columns
  /\ frontmatter_of listed_cfg product_columns product_row
     = Ok ("---" ++ nl ++ "p3: 7" ++ nl
           ++ "products:" ++ nl ++ "  - mdf" ++ nl ++ "  - 7" ++ nl
           ++ "labels: [ mdf ]" ++ nl ++ "---" ++ nl ++ nl)
  /\ add_list_property product_row "" ("owners", texts ["P2"; "Owner"]) = Ok "".
Proof.
  assert (Hrow : wf_row product_columns product_row)
    by (apply wf_rowb_sound; reflexivity).
  assert (Hcfg : wf_config listed_cfg product_columns)
    by (apply wf_configb_sound; reflexivity).
  split; [exact Hrow|]. split; [exact Hcfg|]. split.
  - exact (proj2 (proj2
      (list_property_emitted listed_cfg product_columns product_row Hrow Hcfg))).
  - exact (proj2 (proj1
      (list_property_emitted listed_cfg product_columns product_row Hrow Hcfg)
      "owners" (texts ["P2"; "Owner"]) "" (or_intror (or_introl eq_refl)))).
Defined.


(** ** Splitting and joining at the slash *)

Lemma split_not_nil (sep : ascii) (s : string) : Str.split sep s <> [].
Proof.
  induction s as [|c s IH]; simpl; [discriminate|].
  destruct (Ascii.eqb c sep); [discriminate|].
  destruct (Str.split sep s); [contradiction | discriminate].
Qed.

Lemma split_cons (sep c : ascii) (s : string) :
  Ascii.eqb c sep = false ->
  exists h t, Str.split sep s = h :: t
              /\ Str.split sep (String c s) = String c h :: t.
Proof.
  intros Hc. simpl. rewrite Hc.
  destruct (Str.split sep s) as [|h t] eqn:E.
  - now destruct (split_not_nil sep s).
  - now exists h, t.
Qed.

Lemma split_append (sep : ascii) (a b : string) :
  Str.split sep (a ++ String sep b) = (Str.split sep a ++ Str.split sep b)%list.
Proof.
  induction a as [|c a IH].
  - simpl. now rewrite Ascii.eqb_refl.
  - cbn [append]. simpl. destruct (Ascii.eqb c sep) eqn:Hc.
    + now rewrite IH.
    + rewrite IH. destruct (Str.split sep a) as [|h t] eqn:E.
      * now destruct (split_not_nil sep a).
      * reflexivity.
Qed.

Lemma split_no_sep (sep : ascii) (s : string) :
  Forall (fun c => Str.has_char sep c = false) (Str.split sep s).
Proof.
  induction s as [|c s IH]; simpl.
  - now repeat constructor.
  - destruct (Ascii.eqb c sep) eqn:Hc.
    + now constructor.
    + destruct (Str.split sep s) as [|h t]; simpl.
      * repeat constructor. simpl. now rewrite Hc.
      * inversion IH; subst. constructor; [|assumption].
        simpl. now rewrite Hc.
Qed.

Lemma concat_cons_char (sp : string) (c : ascii) (h : string) (t : list string) :
  String.concat sp (String c h :: t) = String c (String.concat sp (h :: t)).
Proof. destruct t; reflexivity. Qed.

Lemma concat_split (sep : ascii) (s : string) :
  String.concat (String sep "") (Str.split sep s) = s.
Proof.
  induction s as [|c s IH]; [reflexivity|].
  cbn [Str.split]. destruct (Str.split sep s) as [|h t] eqn:Es.
  - now destruct (split_not_nil sep s).
  - destruct (Ascii.eqb_spec c sep) as [E|E].
    + subst c. change (String.concat (String sep "") ("" :: h :: t))
        with (String sep (String.concat (String sep "") (h :: t))).
      now rewrite IH.
    + now rewrite concat_cons_char, IH.
Qed.

Lemma split_no_sep_id (sep : ascii) (s : string) :
  Str.has_char sep s = false -> Str.split sep s = [s].
Proof.
  induction s as [|c s IH]; simpl; [reflexivity|].
  intros H. apply orb_false_iff in H as [Hc Hs].
  rewrite Hc, (IH Hs). reflexivity.
Qed.

Lemma split_concat (sep : ascii) (l : list string) :
  l <> [] -> Forall (fun c => Str.has_char sep c = false) l ->
  Str.split sep (String.concat (String sep "") l) = l.
Proof.
  induction l as [|x l IH]; [contradiction|]. intros _ H.
  inversion H as [|? ? Hx Hl]; subst.
  destruct l as [|y l].
  - simpl. now apply split_no_sep_id.
  - change (String.concat (String sep "") (x :: y :: l))
      with (x ++ String sep (String.concat (String sep "") (y :: l))).
    rewrite split_append, (split_no_sep_id sep x Hx).
    rewrite IH by (discriminate || assumption). reflexivity.
Qed.

(** ** The lines of the frontmatter text (lines 160-183) *)

Lemma nl_cons (s : string) : nl ++ s = String lf s.
Proof. reflexivity. Qed.

(** Lines without a line feed are the lines of the text they make; the
    text ends with a line feed, so that an empty line follows them. *)
Lemma text_lines_unlines (ls : list string) :
  forallb no_lf ls = true -> text_lines (unlines ls) = (ls ++ [""])%list.
Proof.
  unfold text_lines. induction ls as [|l ls IH]; intros H.
  - reflexivity.
  - cbn [forallb] in H. apply andb_true_iff in H as [Hl Hls].
    rewrite unlines_cons, nl_cons, split_append.
    rewrite (split_no_sep_id lf l) by (now apply negb_true_iff).
    now rewrite (IH Hls).
Qed.

Lemma no_lf_append (a b : string) : no_lf (a ++ b) = no_lf a && no_lf b.
Proof. unfold no_lf. rewrite has_char_append. apply negb_orb. Qed.

Lemma lower_char_lf (c : ascii) :
  Ascii.eqb (Str.lower_char c) lf = Ascii.eqb c lf.
Proof. destruct c as [[] [] [] [] [] [] [] []]; reflexivity. Qed.

Lemma no_lf_lower (s : string) : no_lf (Str.lower s) = no_lf s.
Proof.
  unfold no_lf. f_equal. induction s as [|c s IH]; simpl; [reflexivity|].
  now rewrite lower_char_lf, IH.
Qed.

Lemma has_char_lstrip (c : ascii) (s : string) :
  Str.has_char c s = false -> Str.has_char c (Str.lstrip s) = false.
Proof.
  induction s as [|x s IH]; simpl; [reflexivity|]. intros H.
  destruct (Str.is_space x); [|exact H].
  apply orb_false_iff in H as [_ H]. now apply IH.
Qed.

Lemma has_char_rstrip (c : ascii) (s : string) :
  Str.has_char c s = false -> Str.has_char c (Str.rstrip s) = false.
Proof.
  induction s as [|x s IH]; simpl; [reflexivity|]. intros H.
  apply orb_false_iff in H as [Hx Hs]. specialize (IH Hs).
  destruct (Str.rstrip s) as [|y t].
  - destruct (Str.is_space x); simpl; [reflexivity|]. now rewrite Hx.
  - simpl in *. now rewrite Hx.
Qed.

Lemma no_lf_strip (s : string) : no_lf s = true -> no_lf (Str.strip s) = true.
Proof.
  unfold no_lf, Str.strip. intros H. apply negb_true_iff in H.
  apply negb_true_iff. now apply has_char_rstrip, has_char_lstrip.
Qed.

Lemma no_lf_concat (sp : string) (ls : list string) :
  no_lf sp = true -> forallb no_lf ls = true ->
  no_lf (String.concat sp ls) = true.
Proof.
  intros Hsp. induction ls as [|l ls IH]; [reflexivity|].
  cbn [forallb]. intros H. apply andb_true_iff in H as [Hl Hls].
  destruct ls as [|l' ls]; [exact Hl|].
  change (String.concat sp (l :: l' :: ls))
    with (l ++ sp ++ String.concat sp (l' :: ls)).
  now rewrite !no_lf_append, Hl, Hsp, (IH Hls).
Qed.

(** With no line feed in the names and in the cells, no line between the
    delimiters has one. *)
Lemma frontmatter_lines_one_line (cfg : config) (r : row) :
  one_line cfg r = true -> forallb no_lf (frontmatter_lines cfg r) = true.
Proof.
  unfold one_line. intros H.
  apply andb_true_iff in H as [H Hb]. apply andb_true_iff in H as [Hp Hl].
  rewrite forallb_forall in Hp, Hl, Hb.
  apply forallb_forall. intros l Hin. unfold frontmatter_lines in Hin.
  apply in_app_or in Hin as [Hin|Hin]; [|apply in_app_or in Hin as [Hin|Hin]].
  - apply in_map_iff in Hin as (col & <- & Hcol).
    apply filter_In in Hcol as [Hcol _].
    specialize (Hp col Hcol). apply andb_true_iff in Hp as [Hp1 Hp2].
    unfold property_line. now rewrite !no_lf_append, no_lf_lower, Hp1, Hp2.
  - apply in_flat_map in Hin as ([name cols] & Hp' & Hin).
    specialize (Hl _ Hp'). cbn [fst snd] in Hl.
    apply andb_true_iff in Hl as [Hname Hcols].
    rewrite forallb_forall in Hcols.
    unfold list_property_lines, list_block in Hin. cbn [fst snd] in Hin.
    destruct (list_values r cols) as [|v vs] eqn:E; [destruct Hin|].
    destruct Hin as [<-|Hin].
    + now rewrite no_lf_append, Hname.
    + apply in_map_iff in Hin as (x & <- & Hx). rewrite <- E in Hx.
      apply in_map_iff in Hx as (col & <- & Hcol).
      apply filter_In in Hcol as [Hcol _].
      unfold list_item. rewrite no_lf_append.
      now rewrite (no_lf_strip _ (Hcols col Hcol)).
  - destruct (label_values r (labels_cols cfg)) as [|v vs] eqn:E;
      [destruct Hin|].
    destruct Hin as [<-|[]]. rewrite !no_lf_append. unfold Str.join.
    rewrite no_lf_concat; [reflexivity | reflexivity |].
    apply forallb_forall. intros x Hx. rewrite <- E in Hx.
    apply in_map_iff in Hx as (col & <- & Hcol).
    apply filter_In in Hcol as [Hcol _]. now apply Hb.
Qed.

(** C5, amended.  For every row of the frame: when the property columns
    under which the row has a value have text labels, the frontmatter of
    its document is a delimiter line, the lines of the selected
    properties, list properties and labels, a second delimiter line and a
    blank line, and the document is this frontmatter followed by the
    sections; when no selected label, list-property name or cell text has
    a line feed in it, the lines of the frontmatter text are these lines
    and exactly two of them are delimiters; and when nothing is selected,
    or the row has no value under any selected column, the frontmatter is
    the two delimiter lines and the blank line. *)
Theorem frontmatter_delimited (cfg : config) (df_columns : list label) (r : row) :
  wf_row df_columns r -> wf_config cfg df_columns ->
  let lines := (delimiter :: frontmatter_lines cfg r ++ [delimiter; ""])%list in
  (keys_defined r (properties_cols cfg) = true ->
   frontmatter_of cfg df_columns r = Ok (unlines lines)
   /\ md_content_of cfg df_columns r
      = Ok (unlines lines ++ sections_text r (sections_cols cfg)))
  /\ (one_line cfg r = true ->
      text_lines (unlines lines) = (lines ++ [""])%list
      /\ count_occ string_dec (text_lines (unlines lines)) delimiter = 2)
  /\ (all_missing cfg r = true ->
      frontmatter_of cfg df_columns r = Ok (unlines [delimiter; delimiter; ""])
      /\ text_lines (unlines [delimiter; delimiter; ""])
         = [delimiter; delimiter; ""; ""]).
Proof.
  intros Hrow Hcfg lines. subst lines. split; [|split].
  - intros Hkeys. split.
    + now apply frontmatter_of_lines.
    + now apply md_content_of_lines.
  - intros Hone.
    assert (Hlines : text_lines (unlines (delimiter :: frontmatter_lines cfg r
                                          ++ [delimiter; ""]))
                     = ((delimiter :: frontmatter_lines cfg r
                         ++ [delimiter; ""]) ++ [""])%list).
    { apply text_lines_unlines. cbn [forallb]. rewrite forallb_app.
      now rewrite (frontmatter_lines_one_line cfg r Hone). }
    split; [exact Hlines|]. rewrite Hlines.
    rewrite count_occ_app. rewrite count_occ_cons_eq by reflexivity.
    rewrite count_occ_app.
    rewrite (count_occ_absent _ _ (frontmatter_lines_not_delimiter cfg r)).
    reflexivity.
  - intros Hall. split; [|reflexivity].
    rewrite (frontmatter_of_lines cfg df_columns r Hrow Hcfg
               (all_missing_keys_defined cfg r Hall)).
    now rewrite (all_missing_no_lines cfg r Hall).
Qed.

Lemma frontmatter_delimited_witness :
  wf_row spec_columns spec_row /\ wf_config bare_cfg spec_columns
  /\ wf_config spec_cfg spec_columns
  /\ frontmatter_of bare_cfg spec_columns spec_row
     = Ok ("---" ++ nl ++ "---" ++ nl ++ nl)
  /\ frontmatter_of spec_cfg spec_columns spec_row
     = Ok ("---" ++ nl ++ "author: Jane" ++ nl ++ "labels: [python,ml]" ++ nl
           ++ "---" ++ nl ++ nl)
  /\ text_lines ("---" ++ nl ++ "author: Jane" ++ nl ++ "labels: [python,ml]"
                 ++ nl ++ "---" ++ nl ++ nl)
     = ["---"; "author: Jane"; "labels: [python,ml]"; "---"; ""; ""]
  /\ count_occ string_dec
       (text_lines ("---" ++ nl ++ "author: Jane" ++ nl
                    ++ "labels: [python,ml]" ++ nl ++ "---" ++ nl ++ nl))
       delimiter = 2.
Proof.
  assert (Hrow : wf_row spec_columns spec_row)
    by (apply wf_rowb_sound; reflexivity).
  assert (Hbare : wf_config bare_cfg spec_columns)
    by (apply wf_configb_sound; reflexivity).
  assert (Hcfg : wf_config spec_cfg spec_columns)
    by (apply wf_configb_sound; reflexivity).
  split; [exact Hrow|]. split; [exact Hbare|]. split; [exact Hcfg|].
  destruct (frontmatter_delimited spec_cfg spec_columns spec_row Hrow Hcfg)
    as (Hmade & Hlines & _).
  split; [|split; [|split]].
  - exact (proj1 (proj2 (proj2
      (frontmatter_delimited bare_cfg spec_columns spec_row Hrow Hbare))
      eq_refl)).
  - exact (proj1 (Hmade eq_refl)).
  - exact (proj1 (Hlines eq_refl)).
  - exact (proj2 (Hlines eq_refl)).
Defined.

(** C5 as it is written fails when a cell has a line of three dashes in
    it: with the author [Jane], a line feed and [---], the frontmatter of
    the specification's example has three delimiter lines. *)
Theorem frontmatter_third_delimiter :
  in_columns "Author" spec_columns = true
  /\ row_get fenced_row "Author" = Ok (VStr ("Jane" ++ nl ++ "---"))
  /\ frontmatter_of spec_cfg spec_columns fenced_row = Ok fenced_frontmatter
  /\ text_lines fenced_frontmatter
     = ["---"; "author: Jane"; "---"; "labels: [python,ml]"; "---"; ""; ""]
  /\ count_occ string_dec (text_lines fenced_frontmatter) delimiter = 3.
Proof. repeat split. Qed.

(** ** [normpath] and [relpath] below a root *)

Lemma clean_name_parts (c : string) :
  clean_name c = true ->
  (c =? "") = false /\ (c =? OsPath.curdir) = false
  /\ (c =? OsPath.pardir) = false /\ Str.has_char OsPath.sep c = false.
Proof.
  unfold clean_name. intros H.
  apply andb_true_iff in H as [H H4]. apply andb_true_iff in H as [H H3].
  apply andb_true_iff in H as [H1 H2].
  repeat split; now apply negb_true_iff.
Qed.

Lemma norm_step_clean (slashes : nat) (new_comps : list string) (c : string) :
  clean_name c = true -> OsPath.norm_step slashes new_comps c = c :: new_comps.
Proof.
  intros H. apply clean_name_parts in H as (H1 & H2 & H3 & _).
  unfold OsPath.norm_step. now rewrite H1, H2, H3.
Qed.

Lemma norm_loop_clean (slashes : nat) (comps new_comps : list string) :
  forallb clean_name comps = true ->
  fold_left (OsPath.norm_step slashes) comps new_comps
  = (rev comps ++ new_comps)%list.
Proof.
  revert new_comps. induction comps as [|c comps IH]; intros st H; simpl.
  - reflexivity.
  - simpl in H. apply andb_true_iff in H as [Hc H].
    rewrite (norm_step_clean slashes st c Hc), (IH _ H).
    now rewrite <- app_assoc.
Qed.

Lemma initial_slashes_append (p rest : string) :
  plain_root p = true ->
  OsPath.initial_slashes (p ++ String OsPath.sep rest) = OsPath.initial_slashes p.
Proof.
  unfold plain_root, OsPath.initial_slashes, OsPath.sep. intros H.
  apply andb_true_iff in H as [H1 H2].
  destruct p as [|a [|b [|c p]]]; simpl in *; try discriminate.
  - destruct (Ascii.eqb a "/"); [discriminate | reflexivity].
  - destruct (Ascii.eqb a "/"); [|reflexivity].
    destruct (Ascii.eqb b "/"); [discriminate | reflexivity].
  - reflexivity.
Qed.

Lemma norm_comps_append (p rest : string) :
  plain_root p = true -> clean_rel rest = true ->
  OsPath.norm_comps (p ++ String OsPath.sep rest)
  = (OsPath.norm_comps p ++ Str.split OsPath.sep rest)%list.
Proof.
  intros Hp Hrest. unfold OsPath.norm_comps.
  rewrite (initial_slashes_append p rest Hp), split_append, fold_left_app.
  rewrite (norm_loop_clean _ _ _ Hrest).
  now rewrite rev_app_distr, rev_involutive.
Qed.

Lemma norm_loop_segments (slashes : nat) (comps new_comps : list string) :
  Forall (fun c => Str.has_char OsPath.sep c = false) comps ->
  forallb segment new_comps = true ->
  forallb segment (fold_left (OsPath.norm_step slashes) comps new_comps) = true.
Proof.
  revert new_comps. induction comps as [|c comps IH]; intros st Hc Hst.
  - exact Hst.
  - inversion Hc as [|? ? H1 H2]; subst. simpl. apply IH; [assumption|].
    unfold OsPath.norm_step.
    destruct (c =? "") eqn:E1; [exact Hst|].
    destruct (c =? OsPath.curdir) eqn:E2; [exact Hst|]. cbn [orb].
    match goal with |- forallb _ (if ?b then _ else _) = _ => destruct b end.
    + simpl. rewrite Hst. unfold segment. now rewrite E1, H1.
    + destruct st as [|x st]; [reflexivity|].
      simpl in Hst. now apply andb_true_iff in Hst as [_ Hst].
Qed.

Lemma forallb_reverse {A : Type} (f : A -> bool) (l : list A) :
  forallb f (rev l) = forallb f l.
Proof.
  induction l as [|x l IH]; simpl; [reflexivity|].
  rewrite forallb_app, IH. simpl. rewrite andb_true_r. apply andb_comm.
Qed.

Lemma norm_comps_segments (p : string) :
  forallb segment (OsPath.norm_comps p) = true.
Proof.
  unfold OsPath.norm_comps. rewrite forallb_reverse.
  apply norm_loop_segments; [apply split_no_sep | reflexivity].
Qed.

Lemma no_sep_ends (c : ascii) (s : string) :
  Str.has_char c s = false ->
  Str.startswith s c = false /\ Str.endswith s c = false.
Proof.
  induction s as [|x s IH]; simpl; [now split|].
  intros H. apply orb_false_iff in H as [Hx Hs].
  split; [exact Hx|].
  destruct s; [exact Hx | now apply IH].
Qed.

Lemma clean_name_plain (c : string) :
  clean_name c = true -> plain_segment c = true.
Proof.
  intros H. apply clean_name_parts in H as (H1 & _ & _ & H4).
  destruct (no_sep_ends _ _ H4) as [Hs He].
  unfold plain_segment. fold OsPath.sep. rewrite Hs, He.
  destruct c; [discriminate | reflexivity].
Qed.

Lemma plain_segment_root (c : string) :
  plain_segment c = true -> plain_root c = true.
Proof.
  unfold plain_segment, plain_root. intros H.
  apply andb_true_iff in H as [H H3]. apply andb_true_iff in H as [H1 _].
  now rewrite H1, H3.
Qed.

Lemma plain_segment_relative (c : string) :
  plain_segment c = true -> Str.startswith c "/" = false.
Proof.
  unfold plain_segment. intros H.
  apply andb_true_iff in H as [H _]. apply andb_true_iff in H as [_ H].
  now apply negb_true_iff.
Qed.

Lemma concat_cons_append (sp x b : string) (l : list string) :
  String.concat sp ((x ++ sp ++ b) :: l) = x ++ sp ++ String.concat sp (b :: l).
Proof. destruct l; simpl; [reflexivity | now rewrite !append_assoc]. Qed.

Lemma join_clean_names (a : string) (l : list string) :
  plain_root a = true -> forallb clean_name l = true ->
  OsPath.join a l = String.concat "/" (a :: l).
Proof.
  unfold OsPath.join. revert a.
  induction l as [|b l IH]; intros a Ha Hl; [reflexivity|].
  simpl in Hl. apply andb_true_iff in Hl as [Hb Hl].
  apply clean_name_plain in Hb.
  cbn [fold_left].
  rewrite (join_step_plain a b Ha (plain_segment_relative b Hb)).
  rewrite IH by (assumption || now apply plain_root_append).
  apply (concat_cons_append "/" a b l).
Qed.

Lemma common_prefix_len_append (s r : list string) :
  OsPath.common_prefix_len s (s ++ r) = List.length s.
Proof.
  induction s as [|x s IH]; simpl.
  - now destruct r.
  - now rewrite String.eqb_refl, IH.
Qed.

Lemma lstrip_char_relative (c : ascii) (s : string) :
  Str.startswith s c = false -> Str.lstrip_char c s = s.
Proof. destruct s; simpl; [reflexivity | now intros ->]. Qed.

Lemma concat_segments_relative (l : list string) :
  forallb segment l = true ->
  Str.startswith (String.concat "/" l) OsPath.sep = false.
Proof.
  destruct l as [|x l]; [reflexivity|]. simpl. intros H.
  apply andb_true_iff in H as [Hx _]. unfold segment in Hx.
  apply andb_true_iff in Hx as [H1 H2].
  apply negb_true_iff in H1. apply negb_true_iff in H2.
  destruct x as [|c x]; [discriminate|].
  simpl in H2. apply orb_false_iff in H2 as [H2 _].
  destruct l; simpl; exact H2.
Qed.

Lemma components_concat (l : list string) :
  forallb segment l = true ->
  OsPath.components (String.concat "/" l) = l.
Proof.
  intros H. unfold OsPath.components. destruct l as [|x l]; [reflexivity|].
  assert (Hne : Str.is_empty (String.concat "/" (x :: l)) = false).
  { simpl in H. apply andb_true_iff in H as [Hx _]. unfold segment in Hx.
    apply andb_true_iff in Hx as [H1 _].
    destruct x; [discriminate|]. now destruct l. }
  rewrite Hne. apply split_concat; [discriminate|].
  apply Forall_forall. intros c Hc. rewrite forallb_forall in H.
  specialize (H c Hc). unfold segment in H.
  apply andb_true_iff in H as [_ H]. now apply negb_true_iff in H.
Qed.

(** The components of the normalized form of an absolute path. *)
Lemma absolute_components (p : string) :
  OsPath.isabs p = true ->
  OsPath.components (Str.lstrip_char OsPath.sep (OsPath.normpath p))
  = OsPath.norm_comps p.
Proof.
  intros Habs. pose proof (norm_comps_segments p) as Hseg.
  pose proof (concat_segments_relative _ Hseg) as Hrel.
  assert (Hn : OsPath.normpath p = String "/" (String.concat "/" (OsPath.norm_comps p))
               \/ OsPath.normpath p
                  = String "/" (String "/" (String.concat "/" (OsPath.norm_comps p)))).
  { unfold OsPath.normpath, OsPath.initial_slashes, Str.join.
    unfold OsPath.isabs in Habs. rewrite Habs.
    destruct p; [discriminate|]. cbn [Str.is_empty].
    match goal with |- context [if ?b then 2 else 1] => destruct b end;
      [right | left]; reflexivity. }
  assert (Hstrip : forall s, Str.lstrip_char OsPath.sep (String "/" s)
                             = Str.lstrip_char OsPath.sep s) by reflexivity.
  destruct Hn as [Hn|Hn]; rewrite Hn, !Hstrip;
    rewrite (lstrip_char_relative _ _ Hrel);
    now apply components_concat.
Qed.

Lemma startswith_append (a b : string) (c : ascii) :
  Str.is_empty a = false -> Str.startswith (a ++ b) c = Str.startswith a c.
Proof. destruct a; [discriminate | reflexivity]. Qed.

Lemma plain_root_not_empty (p : string) :
  plain_root p = true -> Str.is_empty p = false.
Proof.
  unfold plain_root. intros H. apply andb_true_iff in H as [H _].
  now apply negb_true_iff.
Qed.

(** What [abspath] normalizes: the path itself when it is absolute, and
    the path joined to the current directory otherwise. *)
Lemma abspath_below (cwd root rest : string) :
  OsPath.isabs cwd = true -> plain_root root = true ->
  exists p,
    plain_root p = true /\ OsPath.isabs p = true
    /\ OsPath.abspath cwd root = OsPath.normpath p
    /\ OsPath.abspath cwd (root ++ String OsPath.sep rest)
       = OsPath.normpath (p ++ String OsPath.sep rest).
Proof.
  intros Hcwd Hroot. pose proof (plain_root_not_empty root Hroot) as Hne.
  unfold OsPath.abspath, OsPath.isabs.
  rewrite (startswith_append root _ OsPath.sep Hne).
  destruct (Str.startswith root OsPath.sep) eqn:Habs.
  - exists root. now repeat split.
  - unfold OsPath.join. cbn [fold_left]. unfold OsPath.join_step.
    rewrite (startswith_append root _ OsPath.sep Hne), Habs.
    assert (Hc : Str.is_empty cwd = false) by (now destruct cwd).
    assert (He : forall q, Str.endswith (q ++ root) OsPath.sep = false).
    { intros q. rewrite (endswith_append q root OsPath.sep Hne).
      unfold plain_root in Hroot. apply andb_true_iff in Hroot as [_ H].
      now apply negb_true_iff in H. }
    destruct (Str.is_empty cwd || Str.endswith cwd OsPath.sep).
    + exists (cwd ++ root). repeat split.
      * unfold plain_root. rewrite He. now destruct cwd.
      * now rewrite (startswith_append cwd root OsPath.sep Hc).
      * now rewrite append_assoc.
    + exists (cwd ++ String OsPath.sep root). repeat split.
      * unfold plain_root.
        change (cwd ++ String OsPath.sep root) with (cwd ++ "/" ++ root).
        rewrite <- append_assoc, He. now destruct cwd.
      * now rewrite (startswith_append cwd _ OsPath.sep Hc).
      * rewrite append_assoc. reflexivity.
Qed.

(** A path made of the root, a slash and clean names is, relative to the
    root, these names. *)
Lemma relpath_below_root (cwd root rest : string) :
  OsPath.isabs cwd = true -> plain_root root = true -> clean_rel rest = true ->
  OsPath.relpath cwd (root ++ String OsPath.sep rest) root = Some rest.
Proof.
  intros Hcwd Hroot Hrest.
  destruct (abspath_below cwd root rest Hcwd Hroot)
    as (p & Hp & Hpabs & Hstart & Hpath).
  unfold OsPath.relpath.
  assert (Hne : Str.is_empty (root ++ String OsPath.sep rest) = false)
    by (pose proof (plain_root_not_empty root Hroot); now destruct root).
  rewrite Hne, Hstart, Hpath.
  rewrite (absolute_components p Hpabs).
  rewrite absolute_components
    by (unfold OsPath.isabs in *;
        now rewrite (startswith_append p _ OsPath.sep (plain_root_not_empty p Hp))).
  rewrite (norm_comps_append p rest Hp Hrest).
  rewrite common_prefix_len_append, Nat.sub_diag.
  cbn [repeat app].
  rewrite skipn_app, skipn_all, Nat.sub_diag. cbn [skipn app].
  destruct (Str.split OsPath.sep rest) as [|a l] eqn:E.
  - now destruct (split_not_nil OsPath.sep rest).
  - unfold clean_rel in Hrest. rewrite E in Hrest.
    simpl in Hrest. apply andb_true_iff in Hrest as [Ha Hl].
    rewrite (join_clean_names a l
               (plain_segment_root a (clean_name_plain a Ha)) Hl).
    f_equal. rewrite <- E. apply (concat_split OsPath.sep rest).
Qed.

Example relpath_below_root_ex :
  OsPath.relpath "/" "out/a/b.md" "out" = Some "a/b.md"
  /\ OsPath.relpath "/home/u/" "../x/out/a/b.md" "../x/out" = Some "a/b.md"
  /\ OsPath.relpath "/home/u" "/tmp/o/b.md" "/tmp/o" = Some "b.md".
Proof. repeat split; reflexivity. Qed.

(** ** The dictionary *)

Lemma dict_get_set (d : dict) (k v k' : string) :
  dict_get (dict_set d k v) k' = if k =? k' then Some v else dict_get d k'.
Proof.
  induction d as [|[x y] d IH]; simpl.
  - reflexivity.
  - destruct (String.eqb_spec x k) as [E|E]; simpl.
    + subst x. now destruct (k =? k').
    + rewrite IH. destruct (String.eqb_spec x k') as [E'|E']; [|reflexivity].
      subst x. apply String.eqb_neq in E. rewrite String.eqb_sym in E.
      now rewrite E.
Qed.

Lemma dict_keys_set (d : dict) (k v : string) :
  dict_keys (dict_set d k v)
  = if in_keys k (dict_keys d) then dict_keys d else (dict_keys d ++ [k])%list.
Proof.
  unfold dict_keys, in_keys.
  induction d as [|[x y] d IH]; simpl; [reflexivity|].
  rewrite (String.eqb_sym k x).
  destruct (x =? k) eqn:E; simpl; [reflexivity|].
  rewrite IH. now destruct (existsb (String.eqb k) (map fst d)).
Qed.

Lemma dict_set_NoDup (d : dict) (k v : string) :
  NoDup (dict_keys d) -> NoDup (dict_keys (dict_set d k v)).
Proof.
  intros H. rewrite dict_keys_set.
  destruct (in_keys k (dict_keys d)) eqn:E; [exact H|].
  apply NoDup_app; [exact H | repeat constructor; intros [] |].
  intros x Hx [Hk|[]]. subst x.
  apply in_keys_In in Hx. congruence.
Qed.

Lemma dict_get_In (d : dict) (k v : string) :
  dict_get d k = Some v -> In (k, v) d.
Proof.
  induction d as [|[x y] d IH]; simpl; [discriminate|].
  destruct (String.eqb_spec x k) as [E|E].
  - intros [= ->]. subst. now left.
  - intros H. right. now apply IH.
Qed.

Lemma store_NoDup (docs : list (string * string)) (d : dict) :
  NoDup (dict_keys d) -> NoDup (dict_keys (store docs d)).
Proof.
  unfold store. revert d. induction docs as [|doc docs IH]; intros d H.
  - exact H.
  - simpl. apply IH. now apply dict_set_NoDup.
Qed.

Lemma store_get_other (docs : list (string * string)) (d : dict) (k : string) :
  (forall doc, In doc docs -> fst doc <> k) ->
  dict_get (store docs d) k = dict_get d k.
Proof.
  unfold store. revert d. induction docs as [|doc docs IH]; intros d H.
  - reflexivity.
  - simpl. rewrite IH by (intros doc' Hd; apply H; now right).
    rewrite dict_get_set.
    destruct (String.eqb_spec (fst doc) k) as [E|E]; [|reflexivity].
    now destruct (H doc (or_introl eq_refl)).
Qed.

(** The text stored under a path is the one of the last document that has
    this path. *)
Lemma store_get_last (before after : list (string * string)) (d : dict)
    (k v : string) :
  (forall doc, In doc after -> fst doc <> k) ->
  dict_get (store (before ++ (k, v) :: after) d) k = Some v.
Proof.
  intros H. unfold store. rewrite fold_left_app. simpl.
  fold (store before d).
  change (fold_left _ after ?x) with (store after x).
  rewrite (store_get_other after _ k H), dict_get_set.
  now rewrite String.eqb_refl.
Qed.

Lemma NoDup_count_one (l : list string) (x : string) :
  NoDup l -> In x l -> count_occ string_dec l x = 1.
Proof.
  intros Hnd Hin.
  pose proof (proj1 (NoDup_count_occ string_dec l) Hnd x) as Hle.
  pose proof (proj1 (count_occ_In string_dec l x) Hin) as Hgt.
  lia.
Qed.

(** ** The loop over the rows (lines 145-191) *)

Lemma for_each_process_row (cfg : config) (df_columns : list label)
    (rs : list row) (docs : list (string * string)) (st : gen_state) :
  Forall2 (fun r doc => document_of cfg df_columns r = Ok doc) rs docs ->
  for_each (process_row cfg df_columns) rs st
  = Ok {| markdown_files := store docs (markdown_files st);
          file_paths := (file_paths st ++ map fst docs)%list |}.
Proof.
  intros H. revert st. induction H as [|r doc rs docs Hr _ IH]; intros st.
  - simpl. rewrite app_nil_r. now destruct st.
  - simpl. unfold process_row at 1. rewrite Hr. cbn [bind].
    rewrite IH. cbn [markdown_files file_paths map].
    now rewrite <- app_assoc.
Qed.

Lemma documents_exist (cfg : config) (df_columns : list label) (rs : list row) :
  Forall (fun r => succeeds (document_of cfg df_columns r) = true) rs ->
  exists docs, Forall2 (fun r doc => document_of cfg df_columns r = Ok doc) rs docs.
Proof.
  induction 1 as [|r rs Hr _ [docs IH]].
  - exists []. constructor.
  - destruct (document_of cfg df_columns r) as [doc|] eqn:E; [|discriminate].
    exists (doc :: docs). now constructor.
Qed.

Lemma transform_documents (cfg : config) (df_columns : list label)
    (rs : list row) (st : gen_state) :
  transform cfg df_columns rs = Ok st ->
  exists docs,
    Forall2 (fun r doc => document_of cfg df_columns r = Ok doc) rs docs
    /\ markdown_files st = store docs []
    /\ file_paths st = map fst docs.
Proof.
  unfold transform.
  assert (H : forall st0,
             for_each (process_row cfg df_columns) rs st0 = Ok st ->
             Forall (fun r => succeeds (document_of cfg df_columns r) = true) rs).
  { induction rs as [|r rs IH]; intros st0 H0; [constructor|].
    simpl in H0. unfold process_row at 1 in H0.
    destruct (document_of cfg df_columns r) as [doc|] eqn:E; [|discriminate].
    cbn [bind] in H0. constructor; [now rewrite E | now apply IH in H0]. }
  intros Hst. destruct (documents_exist cfg df_columns rs (H _ Hst)) as [docs Hd].
  exists docs. rewrite (for_each_process_row cfg df_columns rs docs _ Hd) in Hst.
  injection Hst as <-. now repeat split.
Qed.

Lemma Forall2_In_right {A B : Type} (R : A -> B -> Prop) (l : list A)
    (l' : list B) (y : B) :
  Forall2 R l l' -> In y l' -> exists x, In x l /\ R x y.
Proof.
  induction 1 as [|a b l l' Hab _ IH]; intros Hin; [destruct Hin|].
  destruct Hin as [<-|Hin].
  - exists a. split; [now left | assumption].
  - destruct (IH Hin) as [x [Hx Hr]]. exists x. split; [now right | assumption].
Qed.

(** C4.  For every dataset whose rows all yield a document: if a row
    computes the output path [p] and no later row does, whatever earlier
    rows computed the same path, the transformation produces a mapping
    that has exactly one entry for [p], and the text of that entry is the
    document generated from this last row. *)
Theorem last_write_wins (cfg : config) (df_columns : list label)
    (before after : list row) (r : row) (p c : string) :
  Forall (fun r' => succeeds (document_of cfg df_columns r') = true)
         (before ++ r :: after) ->
  document_of cfg df_columns r = Ok (p, c) ->
  (forall r' doc, In r' after ->
     document_of cfg df_columns r' = Ok doc -> fst doc <> p) ->
  exists st,
    transform cfg df_columns (before ++ r :: after) = Ok st
    /\ count_occ string_dec (dict_keys (markdown_files st)) p = 1
    /\ dict_get (markdown_files st) p = Some c.
Proof.
  intros Hall Hr Hafter.
  destruct (documents_exist _ _ _ Hall) as [docs Hdocs].
  apply Forall2_app_inv_l in Hdocs as (docs1 & docs2 & H1 & H2 & ->).
  inversion H2 as [|? doc ? docs3 Hdoc H3]; subst.
  rewrite Hr in Hdoc. injection Hdoc as <-.
  assert (Hget : dict_get (store (docs1 ++ (p, c) :: docs3) []) p = Some c).
  { apply store_get_last. intros doc Hin.
    destruct (Forall2_In_right _ _ _ _ H3 Hin) as [r' [Hr' Hd]].
    exact (Hafter r' doc Hr' Hd). }
  eexists. split; [|split].
  - unfold transform. apply for_each_process_row.
    apply Forall2_app; [exact H1 | constructor; [exact Hr | exact H3]].
  - cbn [markdown_files]. apply NoDup_count_one.
    + apply store_NoDup. constructor.
    + apply dict_get_In in Hget.
      change p with (fst (p, c)). now apply in_map.
  - exact Hget.
Qed.

(** Two rows with the same title and folder, by different authors. *)
Lemma last_write_wins_witness :
  exists st,
    transform spec_cfg spec_columns
      [spec_row;
       [(LText "Title", VStr "My Doc"); (LText "Folder", VStr "Guides");
        (LText "Author", VStr "Joe"); (LText "Tags", VMissing)]]
    = Ok st
    /\ count_occ string_dec (dict_keys (markdown_files st))
         "generated_markdown/guides/my_doc.md" = 1
    /\ dict_get (markdown_files st) "generated_markdown/guides/my_doc.md"
       = Some ("---" ++ nl ++ "author: Joe" ++ nl ++ "---" ++ nl ++ nl).
Proof.
  apply (last_write_wins spec_cfg spec_columns [spec_row] []).
  - repeat constructor.
  - reflexivity.
  - intros r' doc [].
Defined.

(** ** The archive (lines 203-208) *)

Lemma join_step_not_empty (path b : string) :
  Str.is_empty b = false -> Str.is_empty (OsPath.join_step path b) = false.
Proof.
  intros Hb. unfold OsPath.join_step.
  destruct (Str.startswith b OsPath.sep); [exact Hb|].
  destruct (Str.is_empty path || Str.endswith path OsPath.sep).
  - destruct path; [exact Hb | reflexivity].
  - destruct path; reflexivity.
Qed.

Lemma filename_of_not_empty (cfg : config) (r : row) (filename : string) :
  filename_of cfg r = Ok filename -> Str.is_empty filename = false.
Proof.
  unfold filename_of.
  destruct (row_get r (filename_col cfg)) as [v|]; [|discriminate].
  cbn [bind]. destruct (replace_lower v) as [base|]; [|discriminate].
  cbn [bind]. intros [= <-]. now destruct base.
Qed.

Lemma file_path_of_not_empty (cfg : config) (r : row) (filename p : string) :
  Str.is_empty filename = false ->
  file_path_of cfg r filename = Ok p -> Str.is_empty p = false.
Proof.
  intros Hf. unfold file_path_of, OsPath.join.
  destruct (negb (label_eqb (folder_col cfg) "None")).
  - destruct (row_get r (folder_col cfg)) as [v|]; [|discriminate].
    cbn [bind]. destruct (negb (isna v)).
    + destruct (replace_lower v) as [folder_name|]; [|discriminate].
      cbn [bind fold_left]. intros [= <-]. now apply join_step_not_empty.
    + cbn [fold_left]. intros [= <-]. now apply join_step_not_empty.
  - cbn [fold_left]. intros [= <-]. now apply join_step_not_empty.
Qed.

Lemma document_of_parts (cfg : config) (df_columns : list label) (r : row)
    (doc : string * string) :
  document_of cfg df_columns r = Ok doc ->
  exists filename,
    filename_of cfg r = Ok filename
    /\ file_path_of cfg r filename = Ok (fst doc)
    /\ md_content_of cfg df_columns r = Ok (snd doc).
Proof.
  unfold document_of.
  destruct (filename_of cfg r) as [filename|]; [|discriminate]. cbn [bind].
  destruct (file_path_of cfg r filename) as [p|] eqn:Ep; [|discriminate].
  cbn [bind].
  destruct (md_content_of cfg df_columns r) as [c|]; [|discriminate].
  cbn [bind]. intros [= <-]. now exists filename.
Qed.

Lemma document_path_not_empty (cfg : config) (df_columns : list label)
    (r : row) (doc : string * string) :
  document_of cfg df_columns r = Ok doc -> Str.is_empty (fst doc) = false.
Proof.
  intros H. apply document_of_parts in H as (filename & Hf & Hp & _).
  exact (file_path_of_not_empty cfg r filename _
           (filename_of_not_empty cfg r filename Hf) Hp).
Qed.

Lemma dict_set_keys_from (d : dict) (k v x : string) :
  In x (dict_keys (dict_set d k v)) -> In x (dict_keys d) \/ x = k.
Proof.
  rewrite dict_keys_set. destruct (in_keys k (dict_keys d)).
  - now left.
  - intros H. apply in_app_or in H as [H|[H|[]]]; [now left | now right].
Qed.

Lemma store_keys_from (docs : list (string * string)) (d : dict) (x : string) :
  In x (dict_keys (store docs d)) -> In x (dict_keys d) \/ In x (map fst docs).
Proof.
  unfold store. revert d. induction docs as [|doc docs IH]; intros d H.
  - now left.
  - simpl in H. apply IH in H as [H|H].
    + apply dict_set_keys_from in H as [H|H]; [now left | right; now left].
    + right. now right.
Qed.

(** Every key of the mapping is the path of the document of some row. *)
Lemma transform_keys_from (cfg : config) (df_columns : list label)
    (rs : list row) (st : gen_state) (key : string) :
  transform cfg df_columns rs = Ok st ->
  In key (dict_keys (markdown_files st)) ->
  exists r doc, In r rs /\ document_of cfg df_columns r = Ok doc /\ fst doc = key.
Proof.
  intros Hst Hk.
  destruct (transform_documents cfg df_columns rs st Hst) as (docs & Hd & Hm & _).
  rewrite Hm in Hk. apply store_keys_from in Hk as [[]|Hk].
  apply in_map_iff in Hk as (doc & Hdoc & Hin).
  destruct (Forall2_In_right _ _ _ _ Hd Hin) as (r & Hr & Hrd).
  now exists r, doc.
Qed.

Lemma transform_NoDup (cfg : config) (df_columns : list label)
    (rs : list row) (st : gen_state) :
  transform cfg df_columns rs = Ok st -> NoDup (dict_keys (markdown_files st)).
Proof.
  intros Hst.
  destruct (transform_documents cfg df_columns rs st Hst) as (docs & _ & Hm & _).
  rewrite Hm. apply store_NoDup. constructor.
Qed.

Lemma relpath_not_empty (cwd path start : string) :
  Str.is_empty path = false ->
  exists p, OsPath.relpath cwd path start = Some p.
Proof.
  intros H. unfold OsPath.relpath. rewrite H.
  match goal with |- context [match ?l with [] => _ | _ => _ end] =>
    destruct l end; eauto.
Qed.

Lemma write_entry_emits (cfg : config) (cwd : string)
    (zipf : list (string * string)) (item : string * string) :
  Str.is_empty (fst item) = false ->
  write_entry cfg cwd zipf item
  = Ok (zipf ++ [(entry_name cfg cwd (fst item), snd item)])%list
  /\ OsPath.relpath cwd (fst item) (output_dir cfg)
     = Some (entry_name cfg cwd (fst item)).
Proof.
  intros H. unfold write_entry, rel_to_root, entry_name.
  destruct (relpath_not_empty cwd (fst item) (output_dir cfg) H) as [p Hp].
  rewrite Hp. now split.
Qed.

(** One [writestr] per item of the mapping, in order. *)
Lemma archive_loop (cfg : config) (cwd : string) (d : dict) :
  (forall key, In key (dict_keys d) -> Str.is_empty key = false) ->
  for_each (write_entry cfg cwd) d []
  = Ok (map (fun item => (entry_name cfg cwd (fst item), snd item)) d).
Proof.
  intros H.
  rewrite (for_each_append_list _
             (fun item => [(entry_name cfg cwd (fst item), snd item)])).
  - reflexivity.
  - intros item Hin a. apply write_entry_emits. apply H.
    unfold dict_keys. now apply in_map.
Qed.

(** ** Clean names give clean paths *)

Lemma length_append (a b : string) :
  String.length (a ++ b) = String.length a + String.length b.
Proof. induction a as [|c a IH]; simpl; [reflexivity | now rewrite IH]. Qed.

Lemma filename_clean (base : string) :
  Str.has_char OsPath.sep base = false -> clean_name (base ++ ".md") = true.
Proof.
  intros H. unfold clean_name.
  assert (Hlen : forall t, String.length t < 3 -> (base ++ ".md" =? t) = false).
  { intros t Ht. apply String.eqb_neq. intros E.
    apply (f_equal String.length) in E. rewrite length_append in E.
    simpl in E. lia. }
  rewrite !Hlen by (simpl; lia).
  rewrite has_char_append, H. reflexivity.
Qed.

Lemma concat_clean_plain (l : list string) :
  l <> [] -> forallb clean_name l = true ->
  plain_segment (String.concat "/" l) = true.
Proof.
  induction l as [|x l IH]; [contradiction|]. intros _ H.
  simpl in H. apply andb_true_iff in H as [Hx Hl].
  pose proof (clean_name_plain x Hx) as Hp.
  destruct l as [|y l]; [exact Hp|].
  assert (IH' : plain_segment (String.concat "/" (y :: l)) = true)
    by (apply IH; [discriminate | exact Hl]).
  change (String.concat "/" (x :: y :: l))
    with (x ++ "/" ++ String.concat "/" (y :: l)).
  unfold plain_segment in *.
  apply andb_true_iff in Hp as [Hp _]. apply andb_true_iff in Hp as [Hx1 Hx2].
  apply andb_true_iff in IH' as [IH' He]. apply andb_true_iff in IH' as [Hn _].
  apply negb_true_iff in Hx1, Hn.
  rewrite (startswith_append x _ "/" Hx1), Hx2.
  rewrite (endswith_append x ("/" ++ String.concat "/" (y :: l)) "/" eq_refl).
  change ("/" ++ String.concat "/" (y :: l))
    with (String "/" (String.concat "/" (y :: l))).
  replace (Str.endswith (String "/" (String.concat "/" (y :: l))) "/")
    with (Str.endswith (String.concat "/" (y :: l)) "/")
    by (destruct (String.concat "/" (y :: l)); [discriminate | reflexivity]).
  rewrite He. now destruct x.
Qed.

Lemma clean_rel_plain (p : string) :
  clean_rel p = true -> plain_segment p = true.
Proof.
  intros H. rewrite <- (concat_split OsPath.sep p).
  apply concat_clean_plain; [apply split_not_nil | exact H].
Qed.

Lemma clean_rel_append (a b : string) :
  clean_rel a = true -> clean_rel b = true ->
  clean_rel (a ++ String OsPath.sep b) = true.
Proof.
  unfold clean_rel. intros Ha Hb.
  now rewrite split_append, forallb_app, Ha, Hb.
Qed.

Lemma clean_name_rel (c : string) : clean_name c = true -> clean_rel c = true.
Proof.
  intros H. unfold clean_rel.
  destruct (clean_name_parts c H) as (_ & _ & _ & H4).
  rewrite (split_no_sep_id OsPath.sep c H4). simpl. now rewrite H.
Qed.

(** The path of a document made from clean cells is the root, a slash and
    clean names. *)
Lemma Ok_inj {A : Type} (a b : A) : Ok a = Ok b -> a = b.
Proof. now intros [= ->]. Qed.

Lemma clean_document_path (cfg : config) (df_columns : list label) (r : row)
    (doc : string * string) :
  plain_root (output_dir cfg) = true -> clean_cells cfg r = true ->
  document_of cfg df_columns r = Ok doc ->
  exists rest, clean_rel rest = true
               /\ fst doc = output_dir cfg ++ String OsPath.sep rest.
Proof.
  intros Hroot Hclean Hdoc.
  apply document_of_parts in Hdoc as (filename & Hf & Hp & _).
  unfold clean_cells in Hclean. apply andb_true_iff in Hclean as [Hname Hfolder].
  destruct (row_get r (filename_col cfg)) as [[s| |]|] eqn:Eg; try discriminate.
  apply negb_true_iff in Hname.
  rewrite (filename_of_str cfg r s Eg) in Hf. injection Hf as <-.
  pose proof (filename_clean _ Hname) as Hfn. fold (spec_filename s) in Hfn.
  pose proof (plain_segment_relative _ (clean_name_plain _ Hfn)) as Hrel.
  destruct (label_eqb_spec (folder_col cfg) "None") as [En|En].
  - rewrite (file_path_of_no_folder cfg r _ (or_introl En)) in Hp.
    apply Ok_inj in Hp. rewrite <- Hp. rewrite (join_plain1 _ _ Hroot Hrel).
    exists (spec_filename s). split; [now apply clean_name_rel | reflexivity].
  - destruct (row_get r (folder_col cfg)) as [[f| |]|] eqn:Ef; try discriminate.
    + rewrite (file_path_of_folder cfg r _ f En Ef) in Hp. apply Ok_inj in Hp. rewrite <- Hp.
      rewrite (join_plain2 _ _ _ Hroot (clean_rel_plain _ Hfolder) Hrel).
      exists (spec_normalize f ++ String OsPath.sep (spec_filename s)). split.
      * apply clean_rel_append; [exact Hfolder | now apply clean_name_rel].
      * reflexivity.
    + rewrite (file_path_of_no_folder cfg r _ (or_intror Ef)) in Hp.
      apply Ok_inj in Hp. rewrite <- Hp. rewrite (join_plain1 _ _ Hroot Hrel).
      exists (spec_filename s). split; [now apply clean_name_rel | reflexivity].
Qed.

Lemma entries_named_none (name : string) (zipf : list (string * string)) :
  (forall entry, In entry zipf -> fst entry <> name) ->
  entries_named name zipf = [].
Proof.
  induction zipf as [|e zipf IH]; intros H; [reflexivity|].
  simpl. destruct (String.eqb_spec (fst e) name) as [E|E].
  - now destruct (H e (or_introl eq_refl)).
  - apply IH. intros e' He'. apply H. now right.
Qed.

(** When distinct keys get distinct names, the entry of a key is the only
    one of its name. *)
Lemma entries_named_unique (f : string -> string) (d : dict) (k v : string) :
  NoDup (dict_keys d) ->
  (forall k1 k2, In k1 (dict_keys d) -> In k2 (dict_keys d) ->
     f k1 = f k2 -> k1 = k2) ->
  dict_get d k = Some v ->
  entries_named (f k) (map (fun item => (f (fst item), snd item)) d)
  = [(f k, v)].
Proof.
  induction d as [|[k0 v0] d IH]; intros Hnd Hinj Hget; [discriminate|].
  simpl in Hnd, Hget. inversion Hnd as [|? ? Hnotin Hnd']; subst.
  cbn [map entries_named filter fst snd].
  destruct (String.eqb_spec k0 k) as [E|E].
  - subst k0. injection Hget as <-. rewrite String.eqb_refl. f_equal.
    apply entries_named_none. intros e He.
    apply in_map_iff in He as ([k1 v1] & <- & Hin). simpl. intros Ef.
    assert (Hk1 : In k1 (dict_keys d))
      by (change k1 with (fst (k1, v1)); now apply in_map).
    apply Hinj in Ef; [| now right | now left]. now subst.
  - assert (Hk : In k (dict_keys d)).
    { apply dict_get_In in Hget. change k with (fst (k, v)). now apply in_map. }
    destruct (String.eqb_spec (f k0) (f k)) as [Ef|Ef].
    + apply Hinj in Ef; [contradiction | now left | now right].
    + apply IH; [exact Hnd' | | exact Hget].
      intros k1 k2 H1 H2. apply Hinj; now right.
Qed.

Lemma generate_archive (cfg : config) (cwd : string) (df : DataFrame)
    (out : output) :
  generate cfg cwd df = Ok out ->
  exists st, transform cfg (columns df) (rows df) = Ok st
             /\ for_each (write_entry cfg cwd) (markdown_files st) []
                = Ok (archive out).
Proof.
  unfold generate.
  destruct (transform cfg (columns df) (rows df)) as [st|]; [|discriminate].
  cbn [bind]. destruct (first_item (markdown_files st)); [|discriminate].
  cbn [bind].
  destruct (for_each (write_entry cfg cwd) (markdown_files st) [])
    as [zipf|] eqn:Ez; [|discriminate].
  cbn [bind]. destruct (for_each (tree_line cfg cwd) (file_paths st) []);
    [|discriminate].
  cbn [bind]. intros [= <-]. exists st. now split.
Qed.

(** C3, as amended.  For every mapping that the transformation produces,
    the archive writer does not raise and writes one entry per path key,
    in the order of the mapping: the keys are pairwise distinct, the path
    of the entry of a key is the key made relative to the output root, and
    its content is the text that the mapping has for the key; these
    entries are the archive of the generation.  When the
    current directory is absolute, the output root is not empty and has
    no slash at its end, and in every row the file name has no slash and
    the folder is made of clean names, each key is root/rest and its entry
    is the only entry whose path is rest. *)
Theorem archive_round_trip (cfg : config) (cwd : string)
    (df_columns : list label) (rs : list row) (st : gen_state) :
  transform cfg df_columns rs = Ok st ->
  exists zipf,
    for_each (write_entry cfg cwd) (markdown_files st) [] = Ok zipf
    /\ NoDup (dict_keys (markdown_files st))
    /\ Forall2 (fun item entry =>
                  OsPath.relpath cwd (fst item) (output_dir cfg)
                  = Some (fst entry)
                  /\ snd entry = snd item)
               (markdown_files st) zipf
    /\ (forall out,
          generate cfg cwd {| columns := df_columns; rows := rs |} = Ok out ->
          archive out = zipf)
    /\ (OsPath.isabs cwd = true -> plain_root (output_dir cfg) = true ->
        forallb (clean_cells cfg) rs = true ->
        forall key text, dict_get (markdown_files st) key = Some text ->
          exists rest, key = output_dir cfg ++ "/" ++ rest
                       /\ entries_named rest zipf = [(rest, text)]).
Proof.
  intros Hst.
  assert (Hne : forall key, In key (dict_keys (markdown_files st)) ->
                  Str.is_empty key = false).
  { intros key Hk.
    destruct (transform_keys_from cfg df_columns rs st key Hst Hk)
      as (r & doc & _ & Hdoc & <-).
    exact (document_path_not_empty cfg df_columns r doc Hdoc). }
  pose proof (transform_NoDup cfg df_columns rs st Hst) as Hnd.
  exists (map (fun item => (entry_name cfg cwd (fst item), snd item))
              (markdown_files st)).
  split; [now apply archive_loop|]. split; [exact Hnd|]. split.
  - clear Hnd. induction (markdown_files st) as [|item d IH]; [constructor|].
    cbn [map]. constructor.
    + split; [|reflexivity].
      apply (write_entry_emits cfg cwd [] item), Hne. now left.
    + apply IH. intros key Hk. apply Hne. now right.
  - split.
    { intros out Hout.
      destruct (generate_archive cfg cwd _ out Hout) as (st' & Hst' & Hz).
      cbn [columns rows] in Hst'. rewrite Hst in Hst'. injection Hst' as <-.
      rewrite (archive_loop cfg cwd _ Hne) in Hz. now injection Hz as <-. }
    intros Hcwd Hroot Hclean key text Hget.
    assert (Hform : forall k, In k (dict_keys (markdown_files st)) ->
              exists rest, clean_rel rest = true
                           /\ k = output_dir cfg ++ String OsPath.sep rest
                           /\ entry_name cfg cwd k = rest).
    { intros k Hk.
      destruct (transform_keys_from cfg df_columns rs st k Hst Hk)
        as (r & doc & Hr & Hdoc & <-).
      rewrite forallb_forall in Hclean.
      destruct (clean_document_path cfg df_columns r doc Hroot (Hclean r Hr) Hdoc)
        as (rest & Hrest & E).
      exists rest. repeat split; [exact Hrest | exact E|].
      unfold entry_name. rewrite E.
      now rewrite (relpath_below_root cwd _ rest Hcwd Hroot Hrest). }
    assert (Hk : In key (dict_keys (markdown_files st))).
    { apply dict_get_In in Hget. change key with (fst (key, text)).
      now apply in_map. }
    destruct (Hform key Hk) as (rest & _ & Ekey & Ename).
    exists rest. split; [exact Ekey|]. rewrite <- Ename.
    apply entries_named_unique; [exact Hnd | | exact Hget].
    intros k1 k2 H1 H2 E.
    destruct (Hform k1 H1) as (r1 & _ & E1 & N1).
    destruct (Hform k2 H2) as (r2 & _ & E2 & N2).
    congruence.
Qed.

Lemma archive_round_trip_witness :
  exists zipf,
    for_each (write_entry spec_cfg "/home/user")
      [("generated_markdown/guides/my_doc.md", spec_document)] [] = Ok zipf
    /\ entries_named "guides/my_doc.md" zipf
       = [("guides/my_doc.md", spec_document)].
Proof.
  destruct (archive_round_trip spec_cfg "/home/user" spec_columns [spec_row]
              {| markdown_files :=
                   [("generated_markdown/guides/my_doc.md", spec_document)];
                 file_paths := ["generated_markdown/guides/my_doc.md"] |}
              eq_refl)
    as (zipf & Hloop & _ & _ & _ & Hone).
  exists zipf. split; [exact Hloop|].
  destruct (Hone eq_refl eq_refl eq_refl
              "generated_markdown/guides/my_doc.md" spec_document eq_refl)
    as (rest & Ekey & Hnamed).
  injection Ekey as <-. exact Hnamed.
Defined.

(** C3 as it is written fails when two keys differ only by a [.]
    segment: the mapping has two keys, the archive has two entries, and
    both entries have the path [a.md], which is the first key made
    relative to the output root. *)
Lemma archive_entry_twice :
  transform dotted_cfg (texts ["Title"; "Folder"]) dotted_rows
  = Ok {| markdown_files := [("generated_markdown/a.md", empty_document);
                             ("generated_markdown/./a.md", empty_document)];
          file_paths := ["generated_markdown/a.md";
                         "generated_markdown/./a.md"] |}
  /\ generate dotted_cfg "/home/user"
       {| columns := (texts ["Title"; "Folder"]); rows := dotted_rows |}
     = Ok {| preview_name := "a.md";
             preview_content := empty_document;
             archive := [("a.md", empty_document); ("a.md", empty_document)];
             file_tree := "- a.md" ++ nl ++ "- a.md" |}
  /\ OsPath.relpath "/home/user" "generated_markdown/a.md"
       (output_dir dotted_cfg) = Some "a.md"
  /\ List.length (entries_named "a.md"
                    [("a.md", empty_document); ("a.md", empty_document)]) = 2.
Proof. repeat split. Qed.

(** ** The labels (lines 179-181) and the example of the specification *)

Lemma spec_example_generated (cwd : string) :
  OsPath.isabs cwd = true ->
  generate spec_cfg cwd {| columns := spec_columns; rows := [spec_row] |}
  = Ok {| preview_name := "my_doc.md";
          preview_content := spec_document;
          archive := [("guides/my_doc.md", spec_document)];
          file_tree := "- guides/my_doc.md" |}.
Proof.
  intros Hcwd.
  assert (Ht : transform spec_cfg spec_columns [spec_row]
               = Ok {| markdown_files :=
                         [("generated_markdown/guides/my_doc.md", spec_document)];
                       file_paths := ["generated_markdown/guides/my_doc.md"] |})
    by reflexivity.
  assert (Hrel : rel_to_root spec_cfg cwd "generated_markdown/guides/my_doc.md"
                 = Ok "guides/my_doc.md").
  { unfold rel_to_root.
    change "generated_markdown/guides/my_doc.md"
      with (output_dir spec_cfg ++ String OsPath.sep "guides/my_doc.md").
    now rewrite (relpath_below_root cwd (output_dir spec_cfg) "guides/my_doc.md"
                   Hcwd eq_refl eq_refl). }
  unfold generate. cbn [columns rows]. rewrite Ht.
  cbn [bind first_item markdown_files file_paths for_each].
  unfold write_entry, tree_line. cbn [fst snd]. rewrite Hrel.
  reflexivity.
Qed.

(** C8.  For every row of the frame, the label values are the texts of
    the label cells that are not missing, in selection order; when there
    is at least one, the single line [labels: [v1, v2, ...]] is appended,
    and when there is none (every label cell missing, or no label column
    selected) nothing is appended; the frontmatter, when the loop over
    the properties does not raise, is the opening delimiter, the lines of
    the properties and of the list properties, this line if there is
    one, the closing delimiter and a blank line.  The example of the
    specification, in any absolute current directory, yields one
    document: its path relative to the output root is [guides/my_doc.md],
    and its frontmatter has the lines [author: Jane] and
    [labels: [python,ml]]. *)
Theorem labels_emitted (cfg : config) (df_columns : list label) (r : row)
    (md_content cwd : string) :
  wf_row df_columns r -> OsPath.isabs cwd = true ->
  let labels :=
    map (fun col => py_str (cell_at r col))
        (filter (fun col => negb (isna (cell_at r col))) (labels_cols cfg)) in
  for_each (collect_label df_columns r) (labels_cols cfg) [] = Ok labels
  /\ add_labels cfg df_columns r md_content
     = Ok (md_content
           ++ match labels with
              | [] => ""
              | _ => "labels: [" ++ Str.join ", " labels ++ "]" ++ nl
              end)
  /\ (wf_config cfg df_columns ->
      frontmatter_of cfg df_columns r
      = if keys_defined r (properties_cols cfg)
        then Ok (unlines
                   (delimiter
                    :: property_lines r (properties_cols cfg)
                    ++ flat_map (list_property_lines r) (list_properties cfg)
                    ++ match labels with
                       | [] => []
                       | _ => ["labels: [" ++ Str.join ", " labels ++ "]"]
                       end
                    ++ [delimiter; ""]))
        else Raise AttributeError)
  /\ generate spec_cfg cwd {| columns := spec_columns; rows := [spec_row] |}
     = Ok {| preview_name := "my_doc.md";
             preview_content :=
               unlines ["---"; "author: Jane"; "labels: [python,ml]"; "---"; ""];
             archive :=
               [("guides/my_doc.md",
                 unlines ["---"; "author: Jane"; "labels: [python,ml]"; "---"; ""])];
             file_tree := "- guides/my_doc.md" |}.
Proof.
  intros Hrow Hcwd labels. split; [|split; [|split]].
  - exact (labels_loop df_columns r Hrow (labels_cols cfg)).
  - rewrite (add_labels_emits cfg df_columns r Hrow md_content).
    change (label_values r (labels_cols cfg)) with labels.
    destruct labels; [reflexivity|].
    cbn [labels_line]. now rewrite unlines_one, !append_assoc.
  - intros Hcfg. rewrite (frontmatter_of_total cfg df_columns r Hrow Hcfg).
    unfold frontmatter_lines, labels_line.
    change (label_values r (labels_cols cfg)) with labels.
    now rewrite <- !app_assoc.
  - exact (spec_example_generated cwd Hcwd).
Qed.

Lemma labels_emitted_witness :
  wf_row product_columns product_row /\ OsPath.isabs "/home/user" = true
  /\ wf_config product_cfg product_columns
  /\ add_labels product_cfg product_columns product_row ""
     = Ok ("labels: [7,  mdf ]" ++ nl)
  /\ frontmatter_of product_cfg product_columns product_row
     = Ok ("---" ++ nl ++ "p3: 7" ++ nl
           ++ "products:" ++ nl ++ "  - mdf" ++ nl ++ "  - 7" ++ nl
           ++ "labels: [7,  mdf ]" ++ nl ++ "---" ++ nl ++ nl).
Proof.
  assert (Hrow : wf_row product_columns product_row)
    by (apply wf_rowb_sound; reflexivity).
  assert (Hcfg : wf_config product_cfg product_columns)
    by (apply wf_configb_sound; reflexivity).
  split; [exact Hrow|]. split; [reflexivity|]. split; [exact Hcfg|].
  destruct (labels_emitted product_cfg product_columns product_row
              "" "/home/user" Hrow eq_refl) as (_ & Hadd & Hfm & _).
  split; [exact Hadd | exact (Hfm Hcfg)].
Defined.

(** ** What is fatal and what is not *)

Lemma succeeds_bind {A B : Type} (c : result A) (k : A -> result B) :
  succeeds (bind c k) = true <-> exists a, c = Ok a /\ succeeds (k a) = true.
Proof.
  destruct c as [a|e]; simpl; split.
  - intros H. now exists a.
  - now intros [a' [[= <-] H]].
  - discriminate.
  - now intros [a' [H _]].
Qed.

(** Two loops of which the second succeeds on an element whenever the
    first does: if the first loop succeeds, so does the second. *)
Lemma for_each_succeeds {A A' B B' : Type} (body : A -> B -> result A)
    (body' : A' -> B' -> result A') (R : B -> B' -> Prop)
    (l : list B) (l' : list B') :
  (forall a a' b b', R b b' ->
     succeeds (body a b) = true -> succeeds (body' a' b') = true) ->
  Forall2 R l l' ->
  forall a a', succeeds (for_each body l a) = true ->
               succeeds (for_each body' l' a') = true.
Proof.
  intros Hstep H. induction H as [|b b' l l' Hb _ IH]; intros a a' Hs.
  - reflexivity.
  - simpl in *. apply succeeds_bind in Hs as (a1 & Ha1 & Hs).
    apply succeeds_bind.
    assert (Hb' : succeeds (body' a' b') = true)
      by (apply (Hstep a a' b b' Hb); now rewrite Ha1).
    destruct (body' a' b') as [a1'|]; [|discriminate].
    exists a1'. split; [reflexivity|]. now apply (IH a1).
Qed.

Lemma for_each_succeeds_same {A A' B : Type} (body : A -> B -> result A)
    (body' : A' -> B -> result A') (l : list B) :
  (forall a a' b, succeeds (body a b) = true -> succeeds (body' a' b) = true) ->
  forall a a', succeeds (for_each body l a) = true ->
               succeeds (for_each body' l a') = true.
Proof.
  intros Hstep.
  apply (for_each_succeeds body body' eq l l).
  - intros a a' b b' <-. apply Hstep.
  - induction l; now constructor.
Qed.

Lemma succeeds_bind_sim {A A' B B' : Type} (c : result A) (c' : result A')
    (k : A -> result B) (k' : A' -> result B') :
  (succeeds c = true -> succeeds c' = true) ->
  (forall a a', succeeds (k a) = true -> succeeds (k' a') = true) ->
  succeeds (bind c k) = true -> succeeds (bind c' k') = true.
Proof.
  intros Hc Hk. destruct c as [a|e]; [|discriminate].
  specialize (Hc eq_refl). destruct c' as [a'|e']; [|discriminate].
  apply Hk.
Qed.

(** A blanked row has the same labels, and under each label the same
    cell or, away from the kept column, a missing one. *)
Lemma blanked_get (keep : label) (r r' : row) (col : label) :
  blanked keep r r' ->
  (row_get r col = Raise KeyError /\ row_get r' col = Raise KeyError)
  \/ exists v v', row_get r col = Ok v /\ row_get r' col = Ok v'
                  /\ (v' = v \/ (v' = VMissing /\ col <> keep)).
Proof.
  unfold blanked. induction 1 as [|[c v] [c' v'] r r' [Hc Hv] _ IH]; simpl.
  - now left.
  - simpl in Hc, Hv. subst c'.
    destruct (label_eqb_spec c col) as [E|E]; [|exact IH].
    subst c. right. now exists v, v'.
Qed.

Lemma blanked_filename (cfg : config) (r r' : row) :
  blanked (filename_col cfg) r r' -> filename_of cfg r' = filename_of cfg r.
Proof.
  intros H. unfold filename_of.
  destruct (blanked_get _ r r' (filename_col cfg) H)
    as [[-> ->]|(v & v' & -> & -> & [->|[_ Hne]])];
    [reflexivity | reflexivity | contradiction].
Qed.

Lemma blanked_file_path (cfg : config) (r r' : row) (filename : string) :
  blanked (filename_col cfg) r r' ->
  succeeds (file_path_of cfg r filename) = true ->
  succeeds (file_path_of cfg r' filename) = true.
Proof.
  intros H. unfold file_path_of.
  destruct (negb (label_eqb (folder_col cfg) "None")); [|reflexivity].
  destruct (blanked_get _ r r' (folder_col cfg) H)
    as [[-> ->]|(v & v' & -> & -> & [->|[-> _]])];
    [discriminate | trivial | reflexivity].
Qed.

Section Blanked.

Variable keep : label.
Variable df_columns : list label.
Variables r r' : row.
Hypothesis Hblank : blanked keep r r'.

(** A step that reads one cell and does not raise on a missing one. *)
Lemma blanked_cell_step {A : Type} (col : label) (k k' : cell -> result A) :
  (forall v, succeeds (k v) = true -> succeeds (k' v) = true) ->
  succeeds (k' VMissing) = true ->
  succeeds (v <- row_get r col ;; k v) = true ->
  succeeds (v <- row_get r' col ;; k' v) = true.
Proof.
  intros Hk Hm.
  destruct (blanked_get keep r r' col Hblank)
    as [[-> ->]|(v & v' & -> & -> & [->|[-> _]])]; cbn [bind];
    [discriminate | apply Hk | now intros _].
Qed.

Lemma blanked_add_property (a a' : string) (col : label) :
  succeeds (add_property df_columns r a col) = true ->
  succeeds (add_property df_columns r' a' col) = true.
Proof.
  unfold add_property. destruct (in_columns col df_columns); [|reflexivity].
  apply blanked_cell_step; [|reflexivity].
  intros v. destruct (negb (isna v)); [|reflexivity].
  destruct col; cbn [label_lower bind succeeds]; auto.
Qed.

Lemma blanked_collect_value (a a' : list string) (col : label) :
  succeeds (collect_value r a col) = true ->
  succeeds (collect_value r' a' col) = true.
Proof.
  unfold collect_value. apply blanked_cell_step; [|reflexivity].
  intros v _. now destruct (negb (isna v)).
Qed.

Lemma blanked_add_list_property (a a' : string) (p : string * list label) :
  succeeds (add_list_property r a p) = true ->
  succeeds (add_list_property r' a' p) = true.
Proof.
  destruct p as [name cols]. unfold add_list_property.
  apply succeeds_bind_sim.
  - apply for_each_succeeds_same. intros x x' col.
    apply blanked_collect_value.
  - intros values values' _. now destruct values'.
Qed.

Lemma blanked_collect_label (a a' : list string) (col : label) :
  succeeds (collect_label df_columns r a col) = true ->
  succeeds (collect_label df_columns r' a' col) = true.
Proof.
  unfold collect_label. destruct (in_columns col df_columns); [|reflexivity].
  apply blanked_cell_step; [|reflexivity].
  intros v _. now destruct (negb (isna v)).
Qed.

Lemma blanked_add_labels (cfg : config) (a a' : string) :
  succeeds (add_labels cfg df_columns r a) = true ->
  succeeds (add_labels cfg df_columns r' a') = true.
Proof.
  unfold add_labels. apply succeeds_bind_sim.
  - apply for_each_succeeds_same. intros x x' col.
    apply blanked_collect_label.
  - intros labels labels' _. now destruct labels'.
Qed.

Lemma blanked_add_section (a a' : string) (col : label) :
  succeeds (add_section df_columns r a col) = true ->
  succeeds (add_section df_columns r' a' col) = true.
Proof.
  unfold add_section. destruct (in_columns col df_columns); [|reflexivity].
  apply blanked_cell_step; [|reflexivity].
  intros v _. now destruct (negb (isna v)).
Qed.

Lemma blanked_md_content (cfg : config) :
  succeeds (md_content_of cfg df_columns r) = true ->
  succeeds (md_content_of cfg df_columns r') = true.
Proof.
  unfold md_content_of, frontmatter_of.
  apply succeeds_bind_sim.
  - apply succeeds_bind_sim.
    + apply for_each_succeeds_same. intros a a' col.
      apply blanked_add_property.
    + intros md1 md1'. apply succeeds_bind_sim.
      * apply for_each_succeeds_same. intros a a' p.
        apply blanked_add_list_property.
      * intros md2 md2'. apply succeeds_bind_sim.
        -- apply blanked_add_labels.
        -- reflexivity.
  - intros fm fm'. apply for_each_succeeds_same. intros a a' col.
    apply blanked_add_section.
Qed.

End Blanked.

Lemma blanked_document (cfg : config) (df_columns : list label) (r r' : row) :
  blanked (filename_col cfg) r r' ->
  succeeds (document_of cfg df_columns r) = true ->
  succeeds (document_of cfg df_columns r') = true.
Proof.
  intros H. unfold document_of. rewrite (blanked_filename cfg r r' H).
  destruct (filename_of cfg r) as [filename|]; [|discriminate]. cbn [bind].
  apply succeeds_bind_sim; [now apply blanked_file_path|].
  intros p p'. apply succeeds_bind_sim; [|reflexivity].
  now apply (blanked_md_content (filename_col cfg)).
Qed.

Lemma blanked_transform (cfg : config) (df_columns : list label)
    (rs rs' : list row) :
  Forall2 (blanked (filename_col cfg)) rs rs' ->
  succeeds (transform cfg df_columns rs) = true ->
  succeeds (transform cfg df_columns rs') = true.
Proof.
  intros H. unfold transform.
  apply (for_each_succeeds _ _ (blanked (filename_col cfg)) rs rs'); [|exact H].
  intros st st' r r' Hr. unfold process_row.
  apply succeeds_bind_sim; [|reflexivity].
  now apply blanked_document.
Qed.

Lemma Forall2_In_left {A B : Type} (R : A -> B -> Prop) (l : list A)
    (l' : list B) (x : A) :
  Forall2 R l l' -> In x l -> exists y, In y l' /\ R x y.
Proof.
  induction 1 as [|a b l l' Hab _ IH]; intros Hin; [destruct Hin|].
  destruct Hin as [<-|Hin].
  - exists b. split; [now left | assumption].
  - destruct (IH Hin) as [y [Hy Hr]]. exists y. split; [now right | assumption].
Qed.

(** A row without a document leaves the whole batch without a mapping. *)
Lemma transform_raises (cfg : config) (df_columns : list label)
    (rs : list row) (r : row) :
  In r rs -> succeeds (document_of cfg df_columns r) = false ->
  exists e, transform cfg df_columns rs = Raise e.
Proof.
  intros Hin Hr. destruct (transform cfg df_columns rs) as [st|e] eqn:E.
  - destruct (transform_documents cfg df_columns rs st E) as (docs & Hd & _).
    destruct (Forall2_In_left _ _ _ r Hd Hin) as (doc & _ & Hdoc).
    rewrite Hdoc in Hr. discriminate.
  - now exists e.
Qed.

(** C9, as amended.  For every dataset that has a row whose file-name
    cell is missing, the transformation raises and produces no mapping,
    and so does the generation as a whole.  No other missing value is
    fatal: when the transformation of a dataset succeeds, it also succeeds
    on the dataset with any cells outside the file-name column blanked. *)
Theorem missing_filename_fatal (cfg : config) (df_columns : list label)
    (rs : list row) (cwd : string) :
  ((exists r, In r rs /\ row_get r (filename_col cfg) = Ok VMissing) ->
   exists e, transform cfg df_columns rs = Raise e
             /\ generate cfg cwd {| columns := df_columns; rows := rs |}
                = Raise e)
  /\ (forall rs', Forall2 (blanked (filename_col cfg)) rs rs' ->
        succeeds (transform cfg df_columns rs) = true ->
        succeeds (transform cfg df_columns rs') = true).
Proof.
  split.
  - intros (r & Hin & Hr).
    assert (Hdoc : succeeds (document_of cfg df_columns r) = false).
    { unfold document_of.
      now rewrite (filename_of_not_str cfg r VMissing Hr). }
    destruct (transform_raises cfg df_columns rs r Hin Hdoc) as [e He].
    exists e. split; [exact He|].
    unfold generate. cbn [columns rows]. now rewrite He.
  - apply blanked_transform.
Qed.

Lemma missing_filename_fatal_witness :
  (exists e,
     transform spec_cfg spec_columns
       [spec_row;
        [(LText "Title", VMissing); (LText "Folder", VStr "Guides");
         (LText "Author", VStr "Joe"); (LText "Tags", VStr "x")]]
     = Raise e)
  /\ succeeds (transform spec_cfg spec_columns
                 [[(LText "Title", VStr "My Doc"); (LText "Folder", VMissing);
                   (LText "Author", VMissing); (LText "Tags", VMissing)]]) = true.
Proof.
  split.
  - destruct (proj1 (missing_filename_fatal spec_cfg spec_columns
                       [spec_row;
                        [(LText "Title", VMissing); (LText "Folder", VStr "Guides");
                         (LText "Author", VStr "Joe"); (LText "Tags", VStr "x")]]
                       "/home/user")) as (e & He & _).
    + eexists. split; [right; left; reflexivity | reflexivity].
    + now exists e.
  - apply (proj2 (missing_filename_fatal spec_cfg spec_columns [spec_row]
                    "/home/user")).
    + unfold blanked. repeat (apply Forall2_cons || apply Forall2_nil);
        (split; [reflexivity|]);
        first [left; reflexivity | right; split; [reflexivity | discriminate]].
    + reflexivity.
Defined.

(** C9 as it is written fails: a missing file name is not the only fatal
    condition.  The generation raises on a sheet without rows, and the
    transformation raises on a sheet whose file names are numbers; no
    file-name cell is missing in either. *)
Lemma fatal_without_missing_filename :
  generate bare_cfg "/home/user" {| columns := spec_columns; rows := [] |}
  = Raise IndexError
  /\ row_get numbered_row (filename_col numbered_cfg) = Ok (VNum "42")
  /\ isna (VNum "42") = false
  /\ transform numbered_cfg (texts ["ID"; "Author"]) [numbered_row]
     = Raise AttributeError.
Proof. repeat split. Qed.

(** C10.  For every selection and every frame without rows, the
    transformation builds the empty mapping and the generation then raises
    IndexError at the preview, where it takes the first item of the
    mapping. *)
Theorem empty_dataset_raises (cfg : config) (cwd : string)
    (df_columns : list label) :
  transform cfg df_columns [] = Ok initial_state
  /\ markdown_files initial_state = []
  /\ first_item (markdown_files initial_state) = Raise IndexError
  /\ generate cfg cwd {| columns := df_columns; rows := [] |} = Raise IndexError.
Proof. repeat split. Qed.

(** ** When the generation succeeds *)

Lemma dict_set_not_nil (d : dict) (k v : string) : dict_set d k v <> [].
Proof.
  destruct d as [|[k' v'] d]; simpl; [discriminate|].
  destruct (k' =? k); discriminate.
Qed.

Lemma store_not_nil (docs : list (string * string)) (d : dict) :
  d <> [] \/ docs <> [] -> store docs d <> [].
Proof.
  unfold store. revert d. induction docs as [|doc docs IH]; intros d H.
  - now destruct H.
  - simpl. apply IH. left. apply dict_set_not_nil.
Qed.

Lemma tree_loop (cfg : config) (cwd : string) (paths : list string) :
  (forall p, In p paths -> Str.is_empty p = false) ->
  for_each (tree_line cfg cwd) paths []
  = Ok (map (fun p => "- " ++ entry_name cfg cwd p) paths).
Proof.
  intros H.
  rewrite (for_each_append_list _ (fun p => ["- " ++ entry_name cfg cwd p])).
  - reflexivity.
  - intros p Hp a. unfold tree_line, rel_to_root, entry_name.
    destruct (relpath_not_empty cwd p (output_dir cfg) (H p Hp)) as [q ->].
    reflexivity.
Qed.

(** X3.  The generation succeeds exactly when there is at least one row
    and every row yields a document: after the transformation, the
    archive and the listing never raise, and the preview raises on the
    empty mapping only. *)
Lemma generate_succeeds (cfg : config) (cwd : string) (df : DataFrame) :
  succeeds (generate cfg cwd df) = true
  <-> rows df <> []
      /\ Forall (fun r => succeeds (document_of cfg (columns df) r) = true)
                (rows df).
Proof.
  split.
  - intros H. unfold generate in H.
    apply succeeds_bind in H as (st & Hst & H).
    apply succeeds_bind in H as (first & Hfirst & _).
    destruct (transform_documents cfg (columns df) (rows df) st Hst)
      as (docs & Hd & Hm & _).
    split.
    + intros E. rewrite E in Hd. inversion Hd; subst.
      rewrite Hm in Hfirst. discriminate.
    + clear Hm Hst. induction Hd as [|r doc rs docs Hr _ IH]; constructor.
      * now rewrite Hr.
      * exact IH.
  - intros [Hne Hall].
    destruct (documents_exist cfg (columns df) (rows df) Hall) as [docs Hd].
    pose proof (for_each_process_row cfg (columns df) (rows df) docs
                  (initial_state) Hd) as Ht.
    unfold generate, transform. rewrite Ht. cbn [bind markdown_files file_paths
                                                 initial_state app].
    assert (Hdocs : docs <> [])
      by (intros ->; inversion Hd; subst; now apply Hne).
    assert (Hpaths : forall p, In p (map fst docs) -> Str.is_empty p = false).
    { intros p Hp. apply in_map_iff in Hp as (doc & <- & Hin).
      destruct (Forall2_In_right _ _ _ _ Hd Hin) as (r & _ & Hr).
      exact (document_path_not_empty cfg (columns df) r doc Hr). }
    destruct (store docs []) as [|item d] eqn:Es.
    + now destruct (store_not_nil docs [] (or_intror Hdocs)).
    + cbn [first_item bind]. rewrite archive_loop.
      * cbn [bind]. now rewrite (tree_loop cfg cwd _ Hpaths).
      * intros key Hk. rewrite <- Es in Hk.
        apply store_keys_from in Hk as [[]|Hk]. now apply Hpaths.
Qed.

(** The selections of the form are well formed for the list property. *)
Lemma form_list_properties_sources (typed_name : string)
    (selected df_columns : list label) :
  (forall col, In col selected -> in_columns col df_columns = true) ->
  forall name cols col,
    In (name, cols) (form_list_properties typed_name selected) ->
    In col cols -> in_columns col df_columns = true.
Proof.
  intros H name cols col. unfold form_list_properties.
  destruct (Str.is_empty (Str.lower (Str.strip typed_name))); [intros []|].
  destruct selected as [|c selected]; [intros []|].
  intros [[= <- <-]|[]]. apply H.
Qed.

(* ================================================================== *)
(** * Further properties of the script *)
(* ================================================================== *)

(** ** The generation, from the state of the transformation *)

Lemma transform_paths_not_empty (cfg : config) (df_columns : list label)
    (rs : list row) (st : gen_state) :
  transform cfg df_columns rs = Ok st ->
  (forall key, In key (dict_keys (markdown_files st)) -> Str.is_empty key = false)
  /\ (forall p, In p (file_paths st) -> Str.is_empty p = false).
Proof.
  intros Hst. split.
  - intros key Hk.
    destruct (transform_keys_from cfg df_columns rs st key Hst Hk)
      as (r & doc & _ & Hdoc & <-).
    exact (document_path_not_empty cfg df_columns r doc Hdoc).
  - intros p Hp.
    destruct (transform_documents cfg df_columns rs st Hst) as (docs & Hd & _ & Hf).
    rewrite Hf in Hp. apply in_map_iff in Hp as (doc & <- & Hin).
    destruct (Forall2_In_right _ _ _ _ Hd Hin) as (r & _ & Hr).
    exact (document_path_not_empty cfg df_columns r doc Hr).
Qed.

(** After a transformation that succeeds, the preview, the archive and the
    listing never raise, except for the preview of an empty mapping. *)
Lemma generate_closed_form (cfg : config) (cwd : string)
    (df_columns : list label) (rs : list row) (st : gen_state) :
  transform cfg df_columns rs = Ok st ->
  generate cfg cwd {| columns := df_columns; rows := rs |} = output_of cfg cwd st.
Proof.
  intros Hst.
  destruct (transform_paths_not_empty cfg df_columns rs st Hst) as [Hk Hp].
  unfold generate, output_of. cbn [columns rows]. rewrite Hst. cbn [bind].
  destruct (markdown_files st) as [|first d] eqn:E; [reflexivity|].
  cbn [first_item bind].
  rewrite (archive_loop cfg cwd _ Hk). cbn [bind].
  now rewrite (tree_loop cfg cwd _ Hp).
Qed.

Lemma generate_raises_with_transform (cfg : config) (cwd : string)
    (df_columns : list label) (rs : list row) (e : exn) :
  transform cfg df_columns rs = Raise e ->
  generate cfg cwd {| columns := df_columns; rows := rs |} = Raise e.
Proof. intros H. unfold generate. cbn [columns rows]. now rewrite H. Qed.

(** ** The sections (lines 186-188) *)

(** X1.  For every row of the frame and whatever has been written so far,
    the loop over the section columns does not raise and appends, in
    selection order, for each selected column whose cell is not missing,
    a level-2 header with the column label as it is, a blank line, the
    text of the cell and a blank line, and nothing for the other columns.
    The document is the frontmatter followed by these sections: it is
    made when the frontmatter is, and the frontmatter is made when the
    property columns with a value have text labels. *)
Theorem sections_emitted (cfg : config) (df_columns : list label) (r : row)
    (md_content : string) :
  wf_row df_columns r ->
  let emitted :=
    map (fun col => "## " ++ label_str col ++ nl ++ nl
                    ++ py_str (cell_at r col) ++ nl ++ nl)
        (filter (fun col => negb (isna (cell_at r col))) (sections_cols cfg)) in
  for_each (add_section df_columns r) (sections_cols cfg) md_content
  = Ok (md_content ++ String.concat "" emitted)
  /\ md_content_of cfg df_columns r
     = (frontmatter <- frontmatter_of cfg df_columns r ;;
        Ok (frontmatter ++ String.concat "" emitted))
  /\ (wf_config cfg df_columns ->
      keys_defined r (properties_cols cfg) = true ->
      exists frontmatter,
        frontmatter_of cfg df_columns r = Ok frontmatter
        /\ md_content_of cfg df_columns r
           = Ok (frontmatter ++ String.concat "" emitted)).
Proof.
  intros Hrow emitted. split; [|split].
  - exact (sections_loop df_columns r (sections_cols cfg) md_content Hrow).
  - exact (md_content_of_sections cfg df_columns r Hrow).
  - intros Hcfg Hkeys. eexists. split.
    + exact (frontmatter_of_lines cfg df_columns r Hrow Hcfg Hkeys).
    + exact (md_content_of_lines cfg df_columns r Hrow Hcfg Hkeys).
Qed.

Lemma sections_emitted_witness :
  wf_row product_columns product_row
  /\ for_each (add_section product_columns product_row)
       (sections_cols product_cfg) ""
     = Ok ("## Notes" ++ nl ++ nl ++ "First line" ++ nl ++ nl).
Proof.
  assert (Hrow : wf_row product_columns product_row)
    by (apply wf_rowb_sound; reflexivity).
  split; [exact Hrow|].
  exact (proj1 (sections_emitted product_cfg product_columns product_row ""
                  Hrow)).
Defined.

(** ** The first row without a document *)

Lemma for_each_app {A B : Type} (body : A -> B -> result A) (l1 l2 : list B)
    (a : A) :
  for_each body (l1 ++ l2) a = bind (for_each body l1 a) (for_each body l2).
Proof.
  revert a. induction l1 as [|b l1 IH]; intros a; simpl; [reflexivity|].
  destruct (body a b) as [a'|e]; simpl; [apply IH | reflexivity].
Qed.

(** X5.  The rows are processed in order and the first row without a
    document ends the batch with the exception of that row: the rows after
    it are not looked at, and neither a mapping nor an archive is
    produced. *)
Theorem transform_stops_at_first_failure (cfg : config) (cwd : string)
    (df_columns : list label) (before after : list row) (r : row) (e : exn) :
  Forall (fun r' => succeeds (document_of cfg df_columns r') = true) before ->
  document_of cfg df_columns r = Raise e ->
  transform cfg df_columns (before ++ r :: after) = Raise e
  /\ generate cfg cwd {| columns := df_columns; rows := before ++ r :: after |}
     = Raise e.
Proof.
  intros Hbefore Hr.
  assert (Ht : transform cfg df_columns (before ++ r :: after) = Raise e).
  { unfold transform. rewrite for_each_app.
    destruct (documents_exist cfg df_columns before Hbefore) as [docs Hd].
    rewrite (for_each_process_row cfg df_columns before docs _ Hd).
    cbn [bind for_each]. unfold process_row at 1. now rewrite Hr. }
  split; [exact Ht | now apply generate_raises_with_transform].
Qed.

Lemma transform_stops_at_first_failure_witness :
  transform numbered_cfg (texts ["ID"; "Author"])
    [[(LText "ID", VStr "a"); (LText "Author", VMissing)]; numbered_row;
     [(LText "Author", VStr "no ID in this row")]]
  = Raise AttributeError.
Proof.
  apply (transform_stops_at_first_failure numbered_cfg "/home/user"
           (texts ["ID"; "Author"]) [[(LText "ID", VStr "a"); (LText "Author", VMissing)]]
           [[(LText "Author", VStr "no ID in this row")]] numbered_row).
  - repeat constructor.
  - reflexivity.
Defined.

(** ** A column that the frame does not have *)

Lemma row_get_error (r : row) (col : label) (e : exn) :
  row_get r col = Raise e -> e = KeyError.
Proof.
  induction r as [|[c v] r IH]; simpl; [now intros [= <-]|].
  destruct (label_eqb c col); [discriminate | exact IH].
Qed.

Lemma values_loop_absent (r : row) (cols : list label) (col : label)
    (values : list string) :
  In col cols -> row_has r col = false ->
  for_each (collect_value r) cols values = Raise KeyError.
Proof.
  intros Hin Habs. revert values.
  induction cols as [|c cols IH]; intros values; [destruct Hin|].
  simpl. unfold collect_value at 1.
  destruct (row_get r c) as [v|e] eqn:E; cbn [bind].
  - destruct Hin as [->|Hin].
    + unfold row_has in Habs. rewrite E in Habs. discriminate.
    + destruct (negb (isna v)); cbn [bind]; now apply IH.
  - now rewrite (row_get_error r c e E).
Qed.

Lemma add_list_property_error (r : row) (md_content : string)
    (p : string * list label) (e : exn) :
  add_list_property r md_content p = Raise e -> e = KeyError.
Proof.
  destruct p as [name cols]. unfold add_list_property.
  assert (H : forall values e',
             for_each (collect_value r) cols values = Raise e' -> e' = KeyError).
  { induction cols as [|c cols IH]; intros values e'; simpl; [discriminate|].
    unfold collect_value at 1.
    destruct (row_get r c) as [v|e0] eqn:E; cbn [bind].
    - destruct (negb (isna v)); cbn [bind]; apply IH.
    - intros [= <-]. exact (row_get_error r c e0 E). }
  destruct (for_each (collect_value r) cols []) as [values|e'] eqn:E; cbn [bind].
  - now destruct values.
  - intros [= <-]. exact (H [] e' E).
Qed.

(** X6.  A selected column that the frame does not have is passed over
    in silence by the loops over the properties, the labels and the
    sections, which test [col in df.columns]; the loop over the sources of
    a list property has no such test and raises KeyError, and with it the
    frontmatter of the row, unless the loop over the properties, which
    comes first, has raised AttributeError. *)
Theorem unknown_column (cfg : config) (df_columns : list label) (r : row)
    (col : label) :
  wf_row df_columns r -> in_columns col df_columns = false ->
  (forall md_content, add_property df_columns r md_content col = Ok md_content)
  /\ (forall labels, collect_label df_columns r labels col = Ok labels)
  /\ (forall md_content, add_section df_columns r md_content col = Ok md_content)
  /\ (forall md_content name sources, In col sources ->
        add_list_property r md_content (name, sources) = Raise KeyError)
  /\ (forall name sources, In (name, sources) (list_properties cfg) ->
        In col sources ->
        frontmatter_of cfg df_columns r
        = if keys_defined r (properties_cols cfg)
          then Raise KeyError else Raise AttributeError).
Proof.
  intros Hrow Hcol.
  assert (Habs : row_has r col = false) by (now rewrite Hrow).
  assert (Hlist : forall md_content name sources, In col sources ->
            add_list_property r md_content (name, sources) = Raise KeyError).
  { intros md name sources Hin. unfold add_list_property.
    now rewrite (values_loop_absent r sources col [] Hin Habs). }
  repeat split.
  - intros md. unfold add_property. now rewrite Hcol.
  - intros labels. unfold collect_label. now rewrite Hcol.
  - intros md. unfold add_section. now rewrite Hcol.
  - exact Hlist.
  - intros name sources Hp Hin. unfold frontmatter_of.
    rewrite (properties_loop_total df_columns r Hrow).
    destruct (keys_defined r (properties_cols cfg)); [|reflexivity].
    cbn [bind].
    assert (H : forall md, for_each (add_list_property r) (list_properties cfg) md
                           = Raise KeyError).
    { induction (list_properties cfg) as [|p ps IH]; intros md; [destruct Hp|].
      simpl. destruct (add_list_property r md p) as [md'|e] eqn:E; cbn [bind].
      - destruct Hp as [->|Hp]; [|now apply IH].
        rewrite (Hlist md name sources Hin) in E. discriminate.
      - now rewrite (add_list_property_error r md p e E). }
    now rewrite H.
Qed.

Lemma unknown_column_witness :
  wf_row spec_columns spec_row /\ in_columns "Products" spec_columns = false
  /\ add_property spec_columns spec_row "---" "Products" = Ok "---"
  /\ add_list_property spec_row "---" ("products", (texts ["Tags"; "Products"]))
     = Raise KeyError.
Proof.
  assert (Hrow : wf_row spec_columns spec_row)
    by (apply wf_rowb_sound; reflexivity).
  split; [exact Hrow|]. split; [reflexivity|].
  destruct (unknown_column spec_cfg spec_columns spec_row "Products" Hrow eq_refl)
    as (H1 & _ & _ & H4 & _).
  split; [apply H1|]. apply H4. right. now left.
Defined.

(** ** The shape of the names (lines 147 and 151) *)










Lemma has_suffix_refl (s : string) : Str.has_suffix s s = true.
Proof.
  destruct s; [reflexivity|]. cbn [Str.has_suffix].
  now rewrite String.eqb_refl.
Qed.

Lemma has_suffix_append (a b suf : string) :
  Str.has_suffix b suf = true -> Str.has_suffix (a ++ b) suf = true.
Proof.
  intros H. induction a as [|c a IH]; [exact H|].
  simpl. rewrite IH. apply orb_true_r.
Qed.

Lemma join_step_suffix (path b suf : string) :
  Str.has_suffix b suf = true ->
  Str.has_suffix (OsPath.join_step path b) suf = true.
Proof.
  intros H. unfold OsPath.join_step.
  destruct (Str.startswith b OsPath.sep); [exact H|].
  destruct (Str.is_empty path || Str.endswith path OsPath.sep).
  - now apply has_suffix_append.
  - apply has_suffix_append.
    now apply (has_suffix_append (String OsPath.sep "") b suf).
Qed.

Lemma file_path_of_suffix (cfg : config) (r : row) (filename p suf : string) :
  Str.has_suffix filename suf = true ->
  file_path_of cfg r filename = Ok p -> Str.has_suffix p suf = true.
Proof.
  intros Hs. unfold file_path_of, OsPath.join.
  destruct (negb (label_eqb (folder_col cfg) "None")).
  - destruct (row_get r (folder_col cfg)) as [v|]; [|discriminate].
    cbn [bind]. destruct (negb (isna v)).
    + destruct (replace_lower v) as [folder_name|]; [|discriminate].
      cbn [bind fold_left]. intros H. apply Ok_inj in H. subst p.
      now apply join_step_suffix.
    + cbn [fold_left]. intros H. apply Ok_inj in H. subst p.
      now apply join_step_suffix.
  - cbn [fold_left]. intros H. apply Ok_inj in H. subst p.
    now apply join_step_suffix.
Qed.

(** X8.  Whatever the output directory and the folder are, the path of a
    document ends with the file name of its row, and this file name ends
    with [.md]: every key of the mapping ends with [.md]. *)
Theorem document_path_ends_with_filename (cfg : config)
    (df_columns : list label) (r : row) (doc : string * string) :
  document_of cfg df_columns r = Ok doc ->
  exists filename,
    filename_of cfg r = Ok filename
    /\ Str.has_suffix filename ".md" = true
    /\ Str.has_suffix (fst doc) filename = true
    /\ Str.has_suffix (fst doc) ".md" = true.
Proof.
  intros Hdoc. apply document_of_parts in Hdoc as (filename & Hf & Hp & _).
  assert (Hmd : Str.has_suffix filename ".md" = true).
  { unfold filename_of in Hf.
    destruct (row_get r (filename_col cfg)) as [v|]; [|discriminate].
    cbn [bind] in Hf. destruct (replace_lower v) as [base|]; [|discriminate].
    cbn [bind] in Hf. apply Ok_inj in Hf. subst filename.
    apply has_suffix_append, has_suffix_refl. }
  exists filename. repeat split; [exact Hf | exact Hmd | |].
  - exact (file_path_of_suffix cfg r filename _ filename
             (has_suffix_refl filename) Hp).
  - exact (file_path_of_suffix cfg r filename _ ".md" Hmd Hp).
Qed.

Lemma document_path_ends_with_filename_witness :
  exists filename,
    filename_of spec_cfg rooted_row = Ok filename
    /\ Str.has_suffix filename ".md" = true
    /\ Str.has_suffix "/tmp/my_doc.md" filename = true
    /\ Str.has_suffix "/tmp/my_doc.md" ".md" = true.
Proof.
  exact (document_path_ends_with_filename spec_cfg (texts ["Title"; "Folder"])
           rooted_row ("/tmp/my_doc.md", empty_document) eq_refl).
Defined.

(** ** The preview (lines 195-197) *)




(** ** The order and the number of the entries (lines 191, 205-208, 222) *)

Lemma filter_and {A : Type} (p q : A -> bool) (l : list A) :
  filter p (filter q l) = filter (fun x => q x && p x) l.
Proof.
  induction l as [|x l IH]; simpl; [reflexivity|].
  destruct (q x); simpl; [destruct (p x); now rewrite IH | exact IH].
Qed.

Lemma in_keys_app (x : string) (l1 l2 : list string) :
  in_keys x (l1 ++ l2) = in_keys x l1 || in_keys x l2.
Proof. unfold in_keys. apply existsb_app. Qed.

(** The keys of the mapping, in terms of the keys it had and of the paths
    stored since. *)
Lemma store_keys (docs : list (string * string)) (d : dict) :
  dict_keys (store docs d)
  = (dict_keys d
     ++ filter (fun x => negb (in_keys x (dict_keys d)))
          (first_occurrences (map fst docs)))%list.
Proof.
  unfold store. revert d. induction docs as [|doc docs IH]; intros d.
  - simpl. now rewrite app_nil_r.
  - cbn [fold_left map first_occurrences filter]. rewrite IH, dict_keys_set.
    destruct (in_keys (fst doc) (dict_keys d)) eqn:E; cbn [negb].
    + f_equal. rewrite filter_and. apply filter_ext. intros x.
      destruct (String.eqb_spec x (fst doc)) as [->|Hx]; cbn [negb andb].
      * now rewrite E.
      * reflexivity.
    + rewrite <- app_assoc. cbn [app]. f_equal. f_equal.
      rewrite filter_and. apply filter_ext. intros x.
      rewrite in_keys_app. unfold in_keys at 2. cbn [existsb].
      rewrite orb_false_r, negb_orb. apply andb_comm.
Qed.

Lemma first_occurrences_In (l : list string) (x : string) :
  In x (first_occurrences l) <-> In x l.
Proof.
  induction l as [|y l IH]; simpl; [reflexivity|].
  rewrite filter_In, IH. split.
  - intros [H|[H _]]; [now left | now right].
  - intros [H|H]; [now left|].
    destruct (String.eqb_spec x y) as [E|E]; [left; now symmetry|].
    right. split; [exact H | reflexivity].
Qed.

Lemma filter_length_le {A : Type} (p : A -> bool) (l : list A) :
  List.length (filter p l) <= List.length l.
Proof.
  induction l as [|x l IH]; simpl; [lia|]. destruct (p x); simpl; lia.
Qed.

Lemma filter_length_all {A : Type} (p : A -> bool) (l : list A) :
  List.length (filter p l) = List.length l -> forall x, In x l -> p x = true.
Proof.
  induction l as [|y l IH]; simpl; [intros _ x []|].
  pose proof (filter_length_le p l) as Hle.
  destruct (p y) eqn:E; simpl; intros H x [<-|Hx];
    [exact E | apply IH; [lia | exact Hx] | lia | lia].
Qed.

Lemma filter_all {A : Type} (p : A -> bool) (l : list A) :
  (forall x, In x l -> p x = true) -> filter p l = l.
Proof.
  induction l as [|y l IH]; intros H; simpl; [reflexivity|].
  rewrite (H y (or_introl eq_refl)). f_equal. apply IH.
  intros x Hx. apply H. now right.
Qed.

Lemma first_occurrences_length (l : list string) :
  List.length (first_occurrences l) <= List.length l.
Proof.
  induction l as [|x l IH]; simpl; [lia|].
  pose proof (filter_length_le (fun y => negb (y =? x)) (first_occurrences l)).
  lia.
Qed.

Lemma first_occurrences_NoDup (l : list string) :
  List.length (first_occurrences l) = List.length l <-> NoDup l.
Proof.
  induction l as [|x l IH]; simpl; [split; [constructor | reflexivity]|].
  pose proof (filter_length_le (fun y => negb (y =? x)) (first_occurrences l))
    as H1.
  pose proof (first_occurrences_length l) as H2.
  split.
  - intros H. constructor.
    + intros Hin. apply (proj2 (first_occurrences_In l x)) in Hin.
      assert (Hall := filter_length_all (fun y => negb (y =? x))
                        (first_occurrences l) ltac:(lia) x Hin).
      simpl in Hall. now rewrite String.eqb_refl in Hall.
    + apply IH. lia.
  - intros Hnd. inversion Hnd as [|? ? Hnotin Hnd']; subst.
    rewrite filter_all.
    + f_equal. now apply IH.
    + intros y Hy. apply (proj1 (first_occurrences_In l y)) in Hy.
      apply negb_true_iff, String.eqb_neq. now intros ->.
Qed.

(** The paths of the rows, and what the mapping, the archive and the
    listing make of them. *)
Lemma generate_paths (cfg : config) (cwd : string) (df_columns : list label)
    (rs : list row) (out : output) :
  generate cfg cwd {| columns := df_columns; rows := rs |} = Ok out ->
  exists paths,
    Forall2 (fun r p => exists c, document_of cfg df_columns r = Ok (p, c))
            rs paths
    /\ map fst (archive out)
       = map (entry_name cfg cwd) (first_occurrences paths)
    /\ file_tree out
       = Str.join nl (map (fun p => "- " ++ entry_name cfg cwd p) paths).
Proof.
  intros Hgen.
  destruct (transform cfg df_columns rs) as [st|e] eqn:Ht.
  2: { rewrite (generate_raises_with_transform _ _ _ _ e Ht) in Hgen.
       discriminate. }
  rewrite (generate_closed_form cfg cwd df_columns rs st Ht) in Hgen.
  destruct (transform_documents cfg df_columns rs st Ht)
    as (docs & Hd & Hm & Hf).
  exists (map fst docs). split; [|split].
  - clear Hm Hf Ht. induction Hd as [|r doc rs docs Hr _ IH]; constructor.
    + exists (snd doc). now destruct doc.
    + exact IH.
  - assert (Ha : map fst (archive out)
                 = map (entry_name cfg cwd) (dict_keys (markdown_files st))).
    { unfold output_of in Hgen.
      destruct (markdown_files st) as [|first d]; [discriminate|].
      apply Ok_inj in Hgen. subst out. cbn [archive]. unfold dict_keys.
      now rewrite !map_map. }
    rewrite Ha, Hm, store_keys. cbn [dict_keys map app]. f_equal.
    apply filter_all. reflexivity.
  - unfold output_of in Hgen. destruct (markdown_files st); [discriminate|].
    apply Ok_inj in Hgen. subst out. cbn [file_tree]. now rewrite Hf.
Qed.

(** X10.  The listing of generated files has one line per row, in row
    order, also for rows whose document was overwritten by a later row:
    the archive holds at most as many entries as there are rows, and as
    many exactly when the paths of the rows are pairwise distinct. *)
Theorem listing_counts_rows (cfg : config) (cwd : string)
    (df_columns : list label) (rs : list row) (out : output) :
  generate cfg cwd {| columns := df_columns; rows := rs |} = Ok out ->
  exists paths,
    Forall2 (fun r p => exists c, document_of cfg df_columns r = Ok (p, c))
            rs paths
    /\ file_tree out
       = Str.join nl (map (fun p => "- " ++ entry_name cfg cwd p) paths)
    /\ List.length (archive out) <= List.length rs
    /\ (List.length (archive out) = List.length rs <-> NoDup paths).
Proof.
  intros Hgen.
  destruct (generate_paths cfg cwd df_columns rs out Hgen)
    as (paths & Hd & Ha & Ht).
  exists paths. split; [exact Hd|]. split; [exact Ht|].
  assert (Hlen : List.length (archive out)
                 = List.length (first_occurrences paths)).
  { rewrite <- (length_map fst (archive out)), Ha. apply length_map. }
  rewrite Hlen, (Forall2_length Hd). split.
  - apply first_occurrences_length.
  - apply first_occurrences_NoDup.
Qed.

Lemma listing_counts_rows_witness :
  exists out,
    generate spec_cfg "/home/user"
      {| columns := spec_columns; rows := rewritten_rows |} = Ok out
    /\ file_tree out = "- guides/my_doc.md" ++ nl ++ "- guides/my_doc.md"
    /\ List.length (archive out) = 1.
Proof.
  eexists. split; [reflexivity|].
  destruct (listing_counts_rows spec_cfg "/home/user" spec_columns
              rewritten_rows _ eq_refl) as (paths & _ & _ & _ & _).
  split; reflexivity.
Defined.

(** X11.  The entries of the archive are in the order in which the paths
    appear for the first time among the rows: a path that a later row
    computes again keeps the place of its first row, though it gets the
    text of its last row. *)
Theorem archive_in_first_occurrence_order (cfg : config) (cwd : string)
    (df_columns : list label) (rs : list row) (out : output) :
  generate cfg cwd {| columns := df_columns; rows := rs |} = Ok out ->
  exists paths,
    Forall2 (fun r p => exists c, document_of cfg df_columns r = Ok (p, c))
            rs paths
    /\ map fst (archive out)
       = map (entry_name cfg cwd) (first_occurrences paths).
Proof.
  intros Hgen.
  destruct (generate_paths cfg cwd df_columns rs out Hgen)
    as (paths & Hd & Ha & _).
  now exists paths.
Qed.

Lemma archive_in_first_occurrence_order_witness :
  exists out,
    generate spec_cfg "/home/user"
      {| columns := spec_columns; rows := three_rows |} = Ok out
    /\ archive out = [("guides/my_doc.md", joe_document);
                      ("other.md", empty_document)].
Proof.
  eexists. split; [reflexivity|].
  destruct (archive_in_first_occurrence_order spec_cfg "/home/user"
              spec_columns three_rows _ eq_refl) as (paths & _ & _).
  reflexivity.
Defined.

(** ** From the cells of a row to the path of its entry *)

(** X12.  In an absolute current directory, with an output root that is
    not empty and has no slash at its end, a row whose file-name cell is a
    text without a slash gets the archive path [filename] when no folder
    column is selected or its folder cell is missing, and the archive path
    [folder/filename] when its folder cell is a text made of clean names,
    where folder and filename are the normalized cells: making the path
    relative undoes the join with the output root. *)
Theorem entry_path_of_row (cfg : config) (cwd : string)
    (df_columns : list label) (r : row) (doc : string * string) (s : string) :
  OsPath.isabs cwd = true -> plain_root (output_dir cfg) = true ->
  document_of cfg df_columns r = Ok doc ->
  row_get r (filename_col cfg) = Ok (VStr s) ->
  Str.has_char OsPath.sep (spec_normalize s) = false ->
  (folder_col cfg = "None" \/ row_get r (folder_col cfg) = Ok VMissing ->
   rel_to_root cfg cwd (fst doc) = Ok (spec_filename s))
  /\ (forall f, folder_col cfg <> "None" ->
        row_get r (folder_col cfg) = Ok (VStr f) ->
        clean_rel (spec_normalize f) = true ->
        rel_to_root cfg cwd (fst doc)
        = Ok (spec_normalize f ++ "/" ++ spec_filename s)).
Proof.
  intros Hcwd Hroot Hdoc Hs Hslash.
  apply document_of_parts in Hdoc as (filename & Hf & Hp & _).
  rewrite (filename_of_str cfg r s Hs) in Hf. apply Ok_inj in Hf. subst filename.
  pose proof (filename_clean _ Hslash) as Hfn. fold (spec_filename s) in Hfn.
  pose proof (plain_segment_relative _ (clean_name_plain _ Hfn)) as Hrel.
  split.
  - intros Hnone. rewrite (file_path_of_no_folder cfg r _ Hnone) in Hp.
    apply Ok_inj in Hp. rewrite <- Hp, (join_plain1 _ _ Hroot Hrel).
    unfold rel_to_root, spec_file_path.
    change (output_dir cfg ++ "/" ++ spec_filename s)
      with (output_dir cfg ++ String OsPath.sep (spec_filename s)).
    now rewrite (relpath_below_root cwd _ _ Hcwd Hroot (clean_name_rel _ Hfn)).
  - intros f Hc Hfolder Hclean.
    rewrite (file_path_of_folder cfg r _ f Hc Hfolder) in Hp.
    apply Ok_inj in Hp.
    rewrite <- Hp, (join_plain2 _ _ _ Hroot (clean_rel_plain _ Hclean) Hrel).
    unfold rel_to_root, spec_file_path.
    change (output_dir cfg ++ "/" ++ spec_normalize f ++ "/" ++ spec_filename s)
      with (output_dir cfg
            ++ String OsPath.sep
                 (spec_normalize f ++ String OsPath.sep (spec_filename s))).
    now rewrite (relpath_below_root cwd _ _ Hcwd Hroot
                   (clean_rel_append _ _ Hclean (clean_name_rel _ Hfn))).
Qed.

Lemma entry_path_of_row_witness :
  rel_to_root spec_cfg "/srv/app" "generated_markdown/guides/my_doc.md"
  = Ok "guides/my_doc.md".
Proof.
  apply (proj2 (entry_path_of_row spec_cfg "/srv/app" spec_columns spec_row
                  ("generated_markdown/guides/my_doc.md", spec_document)
                  "My Doc" eq_refl eq_refl eq_refl eq_refl eq_refl) "Guides");
    [discriminate | reflexivity | reflexivity].
Defined.

(** ** White space (lines 89 and 172) *)

Lemma lstrip_empty (s : string) : Str.is_empty (Str.lstrip s) = blank s.
Proof.
  unfold blank. induction s as [|c s IH]; simpl; [reflexivity|].
  destruct (Str.is_space c); [exact IH | reflexivity].
Qed.

Lemma rstrip_empty (s : string) : Str.is_empty (Str.rstrip s) = blank s.
Proof.
  unfold blank. induction s as [|c s IH]; simpl; [reflexivity|].
  destruct (Str.rstrip s); simpl in IH; rewrite <- IH.
  - destruct (Str.is_space c); reflexivity.
  - now rewrite andb_false_r.
Qed.

Lemma lstrip_blank (s : string) : blank (Str.lstrip s) = blank s.
Proof.
  unfold blank. induction s as [|c s IH]; simpl; [reflexivity|].
  destruct (Str.is_space c) eqn:E; [exact IH | simpl; now rewrite E].
Qed.

Lemma strip_empty (s : string) : Str.is_empty (Str.strip s) = blank s.
Proof. unfold Str.strip. now rewrite rstrip_empty, lstrip_blank. Qed.

Lemma lower_empty (s : string) : Str.is_empty (Str.lower s) = Str.is_empty s.
Proof. now destruct s. Qed.

Lemma lstrip_no_lead (s : string) : no_lead (Str.lstrip s) = true.
Proof.
  induction s as [|c s IH]; simpl; [reflexivity|].
  destruct (Str.is_space c) eqn:E; [exact IH | simpl; now rewrite E].
Qed.

Lemma no_lead_lstrip (s : string) : no_lead s = true -> Str.lstrip s = s.
Proof.
  destruct s as [|c s]; simpl; [reflexivity|].
  intros H. apply negb_true_iff in H. now rewrite H.
Qed.

Lemma rstrip_no_lead (s : string) :
  no_lead s = true -> no_lead (Str.rstrip s) = true.
Proof.
  destruct s as [|c s]; simpl; [reflexivity|]. intros H.
  destruct (Str.rstrip s); [|exact H].
  apply negb_true_iff in H. rewrite H. simpl. now rewrite H.
Qed.

Lemma rstrip_idempotent (s : string) : Str.rstrip (Str.rstrip s) = Str.rstrip s.
Proof.
  induction s as [|c s IH]; [reflexivity|].
  cbn [Str.rstrip]. destruct (Str.rstrip s) as [|x y] eqn:E.
  - destruct (Str.is_space c) eqn:Ec; [reflexivity|].
    cbn [Str.rstrip]. now rewrite Ec.
  - cbn [Str.rstrip]. cbn [Str.rstrip] in IH.
    destruct (match Str.rstrip y with
              | "" => if Str.is_space x then "" else String x ""
              | String a s0 => String x (String a s0)
              end) eqn:E'; [discriminate | now rewrite IH].
Qed.

Lemma strip_stripped (s : string) :
  Str.lstrip (Str.strip s) = Str.strip s
  /\ Str.rstrip (Str.strip s) = Str.strip s.
Proof.
  unfold Str.strip. split.
  - apply no_lead_lstrip, rstrip_no_lead, lstrip_no_lead.
  - apply rstrip_idempotent.
Qed.

(** X14.  No value collected for a list property has white space in front
    or at its end: stripping it again on either side changes nothing. *)
Theorem collected_values_stripped (r : row) (cols : list label)
    (values : list string) :
  for_each (collect_value r) cols [] = Ok values ->
  Forall (fun v => Str.lstrip v = v /\ Str.rstrip v = v) values.
Proof.
  assert (H : forall acc,
             Forall (fun v => Str.lstrip v = v /\ Str.rstrip v = v) acc ->
             for_each (collect_value r) cols acc = Ok values ->
             Forall (fun v => Str.lstrip v = v /\ Str.rstrip v = v) values).
  { induction cols as [|c cols IH]; intros acc Hacc; simpl.
    - intros H. apply Ok_inj in H. now subst.
    - unfold collect_value at 1.
      destruct (row_get r c) as [v|]; [|discriminate]. cbn [bind].
      destruct (negb (isna v)); cbn [bind]; apply IH; [|exact Hacc].
      apply Forall_app. split; [exact Hacc|].
      constructor; [apply strip_stripped | constructor]. }
  apply H. constructor.
Qed.

Lemma collected_values_stripped_witness :
  Forall (fun v => Str.lstrip v = v /\ Str.rstrip v = v) ["mdf"; "7"].
Proof.
  exact (collected_values_stripped product_row (texts ["P1"; "P2"; "P3"]) ["mdf"; "7"]
           eq_refl).
Defined.

(** X15.  A cell that holds white space only is not missing: as a source
    of a list property it is collected as the empty value and written as
    an item without text. *)
Theorem blank_cell_list_item (r : row) (col : label) (s : string) :
  row_get r col = Ok (VStr s) -> blank s = true ->
  (forall values, collect_value r values col = Ok (values ++ [""])%list)
  /\ (forall md_content name,
        add_list_property r md_content (name, [col])
        = Ok (md_content ++ name ++ ":" ++ nl ++ "  - " ++ nl)).
Proof.
  intros Hget Hblank.
  assert (Hstrip : Str.strip s = "").
  { pose proof (strip_empty s) as H. rewrite Hblank in H.
    now destruct (Str.strip s). }
  assert (Hc : forall values, collect_value r values col = Ok (values ++ [""])%list).
  { intros values. unfold collect_value. rewrite Hget. cbn [bind isna negb py_str].
    now rewrite Hstrip. }
  split; [exact Hc|].
  intros md name. unfold add_list_property. cbn [for_each].
  rewrite Hc. cbn [bind app fold_left]. unfold add_value.
  now rewrite !append_assoc.
Qed.

Lemma blank_cell_list_item_witness :
  add_list_property [(LText "Title", VStr "a"); (LText "P1", VStr "   ")] ""
    ("products", (texts ["P1"]))
  = Ok ("products:" ++ nl ++ "  - " ++ nl).
Proof.
  exact (proj2 (blank_cell_list_item [(LText "Title", VStr "a"); (LText "P1", VStr "   ")]
                  "P1" "   " eq_refl eq_refl) "" "products").
Defined.

(** ** The list property of the form (lines 82-98) *)

(** X13.  The form yields at most one list property.  It yields none when
    the name typed is empty or white space only, or when no source column
    is chosen; otherwise it yields one, named by the typed name stripped
    and lowercased, whose sources are the chosen columns: columns of the
    frame, none of which is selected as a property. *)
Theorem form_list_property (typed_name : string)
    (selected df_columns properties_cols : list label) :
  incl selected (list_property_options df_columns properties_cols) ->
  (form_list_properties typed_name selected = []
   /\ (blank typed_name = true \/ selected = []))
  \/ (form_list_properties typed_name selected
      = [(Str.lower (Str.strip typed_name), selected)]
      /\ blank typed_name = false
      /\ Str.is_empty (Str.lower (Str.strip typed_name)) = false
      /\ selected <> []
      /\ forall col, In col selected ->
           in_columns col df_columns = true
           /\ in_columns col properties_cols = false).
Proof.
  intros Hincl. unfold form_list_properties.
  rewrite lower_empty, strip_empty.
  destruct (blank typed_name) eqn:Eb; [left; split; [reflexivity | now left]|].
  destruct selected as [|c selected]; [left; split; [reflexivity | now right]|].
  right. repeat split; try reflexivity; try discriminate.
  - apply in_columns_In.
    apply Hincl in H. unfold list_property_options in H.
    now apply filter_In in H as [H _].
  - apply Hincl in H. unfold list_property_options in H.
    apply filter_In in H as [_ H]. now apply negb_true_iff in H.
Qed.

Lemma form_list_property_witness :
  form_list_properties "  Products " (texts ["P1"; "P3"])
  = [("products", (texts ["P1"; "P3"]))]
  /\ form_list_properties "   " (texts ["P1"; "P3"]) = [].
Proof.
  assert (Hincl : incl (texts ["P1"; "P3"])
                    (list_property_options product_columns (texts ["Owner"]))).
  { intros col [<-|[<-|[]]]; simpl; auto. }
  split.
  - destruct (form_list_property "  Products " (texts ["P1"; "P3"]) product_columns
                (texts ["Owner"]) Hincl) as [[H _]|[H _]]; [discriminate H | exact H].
  - destruct (form_list_property "   " (texts ["P1"; "P3"]) product_columns
                (texts ["Owner"]) Hincl) as [[H _]|[H _]]; [exact H | discriminate H].
Defined.

(** ** How every document begins and ends (lines 160-188) *)

Lemma for_each_invariant {A B : Type} (P : A -> Prop)
    (body : A -> B -> result A) (l : list B) :
  (forall a b a', P a -> body a b = Ok a' -> P a') ->
  forall a a', P a -> for_each body l a = Ok a' -> P a'.
Proof.
  intros Hstep. induction l as [|b l IH]; intros a a' Ha; simpl.
  - intros H. apply Ok_inj in H. now subst.
  - destruct (body a b) as [a1|] eqn:E; [|discriminate]. cbn [bind].
    apply IH. exact (Hstep a b a1 Ha E).
Qed.

Lemma has_prefix_append (a x pre : string) :
  Str.has_prefix a pre = true -> Str.has_prefix (a ++ x) pre = true.
Proof.
  revert a. induction pre as [|p pre IH]; intros a; [reflexivity|].
  destruct a as [|c a]; simpl; [discriminate|].
  intros H. apply andb_true_iff in H as [H1 H2].
  now rewrite H1, (IH a H2).
Qed.

Lemma add_value_loop_prefix (values : list string) (md_content pre : string) :
  Str.has_prefix md_content pre = true ->
  Str.has_prefix (fold_left add_value values md_content) pre = true.
Proof.
  revert md_content. induction values as [|v values IH]; intros md H;
    [exact H|].
  simpl. apply IH. unfold add_value. now apply has_prefix_append.
Qed.

Lemma frontmatter_of_prefix (cfg : config) (df_columns : list label) (r : row)
    (frontmatter : string) :
  frontmatter_of cfg df_columns r = Ok frontmatter ->
  Str.has_prefix frontmatter ("---" ++ nl) = true
  /\ Str.has_suffix frontmatter ("---" ++ nl ++ nl) = true.
Proof.
  unfold frontmatter_of. intros H.
  destruct (for_each (add_property df_columns r) (properties_cols cfg)
              ("---" ++ nl)) as [md1|] eqn:E1; [|discriminate].
  cbn [bind] in H.
  destruct (for_each (add_list_property r) (list_properties cfg) md1)
    as [md2|] eqn:E2; [|discriminate].
  cbn [bind] in H.
  destruct (add_labels cfg df_columns r md2) as [md3|] eqn:E3; [|discriminate].
  cbn [bind] in H. apply Ok_inj in H. subst frontmatter.
  split; [|apply has_suffix_append, has_suffix_refl].
  apply has_prefix_append.
  assert (H1 : Str.has_prefix md1 ("---" ++ nl) = true).
  { apply (for_each_invariant (fun md => Str.has_prefix md ("---" ++ nl) = true)
             _ _) with (a := "---" ++ nl) (2 := eq_refl) (3 := E1).
    intros a col a' Ha. unfold add_property.
    destruct (in_columns col df_columns);
      [|intros Hb; apply Ok_inj in Hb; now subst].
    destruct (row_get r col) as [v|]; [|discriminate]. cbn [bind].
    destruct (negb (isna v));
      [|intros Hb; apply Ok_inj in Hb; now subst a'].
    destruct (label_lower col) as [key|]; [|discriminate]. cbn [bind].
    intros Hb; apply Ok_inj in Hb; subst a'. now apply has_prefix_append. }
  assert (H2 : Str.has_prefix md2 ("---" ++ nl) = true).
  { apply (for_each_invariant (fun md => Str.has_prefix md ("---" ++ nl) = true)
             _ _) with (a := md1) (2 := H1) (3 := E2).
    intros a [name cols] a' Ha. unfold add_list_property.
    destruct (for_each (collect_value r) cols []) as [values|]; [|discriminate].
    cbn [bind]. destruct values as [|v values]; intros Hb; apply Ok_inj in Hb;
      subst a'; [exact Ha|].
    apply add_value_loop_prefix. now apply has_prefix_append. }
  unfold add_labels in E3.
  destruct (for_each (collect_label df_columns r) (labels_cols cfg) [])
    as [labels|]; [|discriminate].
  cbn [bind] in E3. destruct labels; apply Ok_inj in E3; subst md3;
    [exact H2 | now apply has_prefix_append].
Qed.

(** X16.  Every document that is made begins with the delimiter line and
    ends with a blank line, whatever the cells and the selections are,
    sections or not. *)
Theorem document_begins_and_ends (cfg : config) (df_columns : list label)
    (r : row) (md_content : string) :
  md_content_of cfg df_columns r = Ok md_content ->
  Str.has_prefix md_content ("---" ++ nl) = true
  /\ Str.has_suffix md_content (nl ++ nl) = true.
Proof.
  unfold md_content_of. intros H.
  destruct (frontmatter_of cfg df_columns r) as [fm|] eqn:E; [|discriminate].
  cbn [bind] in H.
  destruct (frontmatter_of_prefix cfg df_columns r fm E) as [Hpre Hsuf].
  apply (for_each_invariant
           (fun md => Str.has_prefix md ("---" ++ nl) = true
                      /\ Str.has_suffix md (nl ++ nl) = true)
           _ _) with (a := fm) (3 := H).
  - intros a col a' [Ha1 Ha2]. unfold add_section.
    destruct (in_columns col df_columns);
      [|intros Hb; apply Ok_inj in Hb; now subst].
    destruct (row_get r col) as [v|]; [|discriminate]. cbn [bind].
    destruct (negb (isna v)); intros Hb; apply Ok_inj in Hb; subst a';
      [|now split].
    split; [now apply has_prefix_append|].
    apply (has_suffix_append a), (has_suffix_append "## "),
      (has_suffix_append (label_str col)), (has_suffix_append nl), (has_suffix_append nl),
      (has_suffix_append (py_str v)), has_suffix_refl.
  - split; [exact Hpre|].
    destruct fm as [|c fm]; [discriminate|].
    revert Hsuf. generalize (String c fm). intros s Hs.
    clear - Hs. induction s as [|x s IH]; [discriminate|].
    cbn [Str.has_suffix] in Hs. apply orb_true_iff in Hs as [Hs|Hs].
    + apply String.eqb_eq in Hs. rewrite Hs. reflexivity.
    + cbn [Str.has_suffix]. rewrite (IH Hs). apply orb_true_r.
Qed.

Lemma document_begins_and_ends_witness :
  Str.has_prefix
    ("---" ++ nl ++ "p3: 7" ++ nl ++ "products:" ++ nl ++ "  - mdf" ++ nl
     ++ "  - 7" ++ nl ++ "labels: [7,  mdf ]" ++ nl ++ "---" ++ nl ++ nl
     ++ "## Notes" ++ nl ++ nl ++ "First line" ++ nl ++ nl)
    ("---" ++ nl) = true
  /\ Str.has_suffix
       ("---" ++ nl ++ "p3: 7" ++ nl ++ "products:" ++ nl ++ "  - mdf" ++ nl
        ++ "  - 7" ++ nl ++ "labels: [7,  mdf ]" ++ nl ++ "---" ++ nl ++ nl
        ++ "## Notes" ++ nl ++ nl ++ "First line" ++ nl ++ nl)
       (nl ++ nl) = true.
Proof.
  exact (document_begins_and_ends product_cfg product_columns product_row _
           eq_refl).
Defined.

Lemma generate_succeeds_witness :
  succeeds (generate spec_cfg "/home/user"
              {| columns := spec_columns; rows := three_rows |}) = true.
Proof.
  apply (proj2 (generate_succeeds spec_cfg "/home/user"
                  {| columns := spec_columns; rows := three_rows |})).
  split; [discriminate | repeat constructor].
Defined.
